(** * convert_to_onnx: the conversion-and-publish pipeline of [app.py]

    A shallow embedding of [src/app.py] (a Streamlit front-end around the
    transformers.js conversion script) and the proofs of its specified
    properties.

    The program is effectful Python: it reads secrets and the process
    environment, talks to the Hugging Face registry, downloads and unpacks
    an archive, spawns a child process and edits the local filesystem.  It is
    modelled in a state-and-exception monad [Py] over a [World] (filesystem,
    environment, secrets, session state, and the trace of externally visible
    calls).  Whatever lies outside the repository (registry, network, child
    process, tar parsing, the operator's widget inputs) is an oracle of the
    class [Externals] or a field of [UI]; every theorem quantifies over all
    of them. *)

From Stdlib Require Import ZArith String Ascii List.
From stdpp Require Import gmap strings list fin_maps sorting.

Open Scope Z_scope.

(** ** Python values and exceptions *)

(** An exception instance, as far as the program inspects it: its class name
    and [str(e)].  Every exception modelled here derives from [Exception]
    (the class [except Exception] catches); interpreter-level
    [BaseException]s such as [KeyboardInterrupt] are outside the model. *)
Record PyException : Type := mkExn {
  exn_class : string;
  exn_str : string
}.

Inductive Outcome (A : Type) : Type :=
| Return (a : A)
| Raise (e : PyException).
Arguments Return {A} a.
Arguments Raise {A} e.

(** Truthiness of an [Optional[str]]: [None] and the empty string are
    falsy. *)
Definition truthy (o : option string) : bool :=
  match o with
  | Some s => negb (String.eqb s EmptyString)
  | None => false
  end.

(** [a or b] on [Optional[str]]. *)
Definition py_or (a b : option string) : option string :=
  if truthy a then a else b.

(** ** [str.split] with a one-character separator

    [s.split(sep)] cuts at every occurrence of [sep]; a string with [n]
    occurrences yields [n + 1] segments, possibly empty ones.  Strings are
    sequences of bytes here; cutting at the ASCII byte ["/"] agrees with
    cutting a UTF-8 encoded Python string at the character ["/"]. *)
Fixpoint str_split (sep : ascii) (s : string) : list string :=
  match s with
  | EmptyString => [EmptyString]
  | String c rest =>
      if Ascii.eqb c sep then EmptyString :: str_split sep rest
      else match str_split sep rest with
           | seg :: segs => String c seg :: segs
           | [] => [String c EmptyString]
           end
  end.

Definition slash : ascii := "/"%char.

(** [l[0]] and [l[-1]] raise [IndexError] on an empty list. *)
Definition index_error : PyException :=
  mkExn "IndexError" "list index out of range".

Definition py_index_first (l : list string) : Outcome string :=
  match l with
  | x :: _ => Return x
  | [] => Raise index_error
  end.

Definition py_index_last (l : list string) : Outcome string :=
  match last l with
  | Some x => Return x
  | None => Raise index_error
  end.

(** [sep.join(l)], used to print a path. *)
Fixpoint str_join (sep : string) (l : list string) : string :=
  match l with
  | [] => EmptyString
  | [x] => x
  | x :: rest => x +:+ sep +:+ str_join sep rest
  end.

(** Substring test, for diagnostics that must mention a word. *)
Fixpoint is_prefix_str (p s : string) : bool :=
  match p, s with
  | EmptyString, _ => true
  | String a p', String b s' => Ascii.eqb a b && is_prefix_str p' s'
  | String _ _, EmptyString => false
  end.

Fixpoint contains_str (needle s : string) : bool :=
  is_prefix_str needle s ||
  match s with
  | EmptyString => false
  | String _ s' => contains_str needle s'
  end.

(** ** The world the program runs in *)

(** A path as [pathlib] holds it: its parts.  An absolute path has ["/"] as
    first part, like [PurePosixPath.parts]. *)
Definition path : Type := list string.

Definition is_absolute (p : path) : bool :=
  match p with
  | root :: _ => String.eqb root "/"
  | [] => false
  end.

(** The parts a string contributes to a path: empty and ["."] segments are
    dropped. *)
Definition path_parts (s : string) : list string :=
  filter (fun seg => seg <> EmptyString /\ seg <> ".") (str_split slash s).

Definition starts_with_slash (s : string) : bool :=
  match s with
  | String c _ => Ascii.eqb c slash
  | EmptyString => false
  end.

(** [base / s]: joining an absolute segment discards [base]. *)
Definition path_join (base : path) (s : string) : path :=
  if starts_with_slash s then "/" :: path_parts s
  else base ++ path_parts s.

(** [str(p)]. *)
Definition path_str (p : path) : string :=
  match p with
  | [] => "."
  | root :: rest =>
      if String.eqb root "/" then "/" +:+ str_join "/" rest
      else str_join "/" p
  end.

Inductive Node : Type :=
| Dir
| File (content : string).

Record CompletedProcess : Type := mkCompleted {
  returncode : Z;
  stdout : string;
  stderr : string
}.

(** What [urlretrieve(url, filename)] can do: fail before the local file is
    opened, fail after part of it was written, or write all of it. *)
Inductive RetrieveResult : Type :=
| RetrieveFailed (e : PyException)
| RetrievePartial (e : PyException) (written : string)
| RetrieveOk (content : string).

(** Calls that leave the process, with what came back; Streamlit and logger
    output is recorded too. *)
Inductive Event : Type :=
| EvWhoami (token : option string) (r : Outcome string)
| EvUrlOpen (url : string) (r : Outcome Z)
| EvUrlRetrieve (url : string) (filename : path) (r : RetrieveResult)
| EvSubprocessRun (cmd : list string) (cwd : path)
    (env : gmap string string) (r : Outcome CompletedProcess)
| EvRepoExists (repo_id : string) (r : Outcome bool)
| EvCreateRepo (repo_id : string) (exist_ok private : bool) (r : Outcome unit)
| EvUploadFolder (folder_path : string) (repo_id : string) (r : Outcome unit)
| EvLog (level msg : string)
| EvSt (call : string) (args : list string).

Record World : Type := mkWorld {
  fs : gmap path Node;                  (* local filesystem *)
  os_environ : gmap string string;      (* os.environ of this process *)
  secrets : gmap string string;         (* st.secrets *)
  session_state : gmap string string;   (* st.session_state *)
  trace : list Event                    (* oldest first *)
}.

Definition set_fs (f : gmap path Node) (w : World) : World :=
  mkWorld f (os_environ w) (secrets w) (session_state w) (trace w).

Definition add_event (e : Event) (w : World) : World :=
  mkWorld (fs w) (os_environ w) (secrets w) (session_state w) (trace w ++ [e]).

(** The collaborators outside the repository.  Each oracle sees the whole
    current world, so its answer may depend on everything that happened
    before. *)
Class Externals : Type := {
  sys_executable : string;
  ext_whoami : World -> option string -> Outcome string;
  ext_urlopen_getcode : World -> string -> Outcome Z;
  ext_urlretrieve : World -> string -> RetrieveResult;
  (* tarfile: the members of a gzipped archive, relative to its root *)
  ext_tar_members : string -> Outcome (list (path * Node));
  (* tempfile: the parts of the fresh directory below the root *)
  ext_mkdtemp : World -> list string;
  (* which directory entry the OS lists first *)
  ext_iterdir_first : World -> nat;
  (* the child process: how the call ends and the filesystem it leaves *)
  ext_subprocess_run :
    World -> list string -> path -> gmap string string ->
    Outcome CompletedProcess * gmap path Node;
  ext_repo_exists : World -> string -> Outcome bool;
  ext_create_repo : World -> string -> bool -> bool -> Outcome unit;
  ext_upload_folder : World -> string -> string -> Outcome unit
}.

(** What the operator enters into the widgets during one script run. *)
Record UI : Type := mkUI {
  ui_model_id : string;       (* st.text_input: the model id *)
  ui_trust_remote_code : bool; (* st.toggle *)
  ui_same_repo : bool;        (* st.checkbox, when it is shown *)
  ui_proceed : bool           (* st.button "Proceed" *)
}.

(** ** The monad of Python statements *)

Definition Py (A : Type) : Type := World -> Outcome A * World.

Definition ret {A} (a : A) : Py A := fun w => (Return a, w).

Definition raise {A} (e : PyException) : Py A := fun w => (Raise e, w).

Definition bind {A B} (m : Py A) (k : A -> Py B) : Py B :=
  fun w =>
    match m w with
    | (Return a, w') => k a w'
    | (Raise e, w') => (Raise e, w')
    end.

Declare Scope py_scope.
Delimit Scope py_scope with py.
Notation "x <- m ;; k" := (bind m (fun x => k))
  (at level 100, m at next level, right associativity) : py_scope.
Notation "m ;;; k" := (bind m (fun _ => k))
  (at level 100, right associativity) : py_scope.
Open Scope py_scope.

(** [try: m  except Exception as e: h e]. *)
Definition try_except {A} (m : Py A) (h : PyException -> Py A) : Py A :=
  fun w =>
    match m w with
    | (Return a, w') => (Return a, w')
    | (Raise e, w') => h e w'
    end.

(** [try: m  finally: fin].  [fin] runs on every exit of [m]; an exception
    of [fin] replaces the outcome of [m]. *)
Definition try_finally {A} (m : Py A) (fin : Py unit) : Py A :=
  fun w =>
    match m w with
    | (r, w') =>
        match fin w' with
        | (Return _, w'') => (r, w'')
        | (Raise e, w'') => (Raise e, w'')
        end
    end.

Definition of_outcome {A} (r : Outcome A) : Py A := fun w => (r, w).

Definition emit (e : Event) : Py unit := fun w => (Return tt, add_event e w).

Definition get_world : Py World := fun w => (Return w, w).

Definition put_fs (f : gmap path Node) : Py unit :=
  fun w => (Return tt, set_fs f w).

Definition st_call (call : string) (args : list string) : Py unit :=
  emit (EvSt call args).

Definition log (level msg : string) : Py unit := emit (EvLog level msg).

Definition modify_fs (f : gmap path Node -> gmap path Node) : Py unit :=
  fun w => (Return tt, set_fs (f (fs w)) w).

(** ** The local filesystem

    A finite map from paths to nodes.  The operations are those of an ideal
    disk: they fail only for a reason visible in the map (a missing parent
    directory), never for permissions, quota or I/O errors. *)

Definition path_exists (f : gmap path Node) (p : path) : bool :=
  bool_decide (is_Some (f !! p)).

(** [shutil.rmtree(p, ignore_errors=True)]: [p] and everything below it go;
    a missing [p] is no error. *)
Definition rmtree (p : path) (f : gmap path Node) : gmap path Node :=
  filter (fun entry => ~ p `prefix_of` entry.1) f.

(** [Path.unlink(missing_ok=True)]. *)
Definition unlink (p : path) (f : gmap path Node) : gmap path Node :=
  delete p f.

(** The entries directly inside directory [p]. *)
Definition children (p : path) (f : gmap path Node) : list path :=
  filter (fun q => p `prefix_of` q /\ length q = S (length p))
         (map_to_list f).*1.

(** [src.rename(dst)]: the subtree at [src] moves to [dst]. *)
Definition rename (src dst : path) (f : gmap path Node) : gmap path Node :=
  let moved := filter (fun entry => src `prefix_of` entry.1) f in
  let kept := filter (fun entry => ~ src `prefix_of` entry.1) f in
  list_to_map
    ((fun entry => ((dst ++ drop (length src) entry.1)%list, entry.2))
       <$> map_to_list moved)
  ∪ kept.

(** Writing one archive member below [base], creating the directories on
    the way. *)
Fixpoint extract_member (base : path) (rel : list string) (n : Node)
    (f : gmap path Node) : gmap path Node :=
  match rel with
  | [] => f
  | [name] => <[(base ++ [name])%list := n]> f
  | d :: rest =>
      let here := (base ++ [d])%list in
      extract_member here rest n
        (match f !! here with
         | Some _ => f
         | None => <[here := Dir]> f
         end)
  end.

(** [tar.extractall(base)]. *)
Definition extractall (base : path) (members : list (path * Node))
    (f : gmap path Node) : gmap path Node :=
  fold_left (fun acc m => extract_member base m.1 m.2 acc) members f.

(** [with open(parent/name, "w") as file: file.write(content)]: the file is
    created (empty) before [content] is evaluated. *)
Definition open_write (parent : path) (name : string) (content : Py string)
    : Py unit :=
  w <- get_world;;
  match fs w !! parent with
  | Some Dir =>
      modify_fs (insert (parent ++ [name])%list (File EmptyString));;;
      text <- content;;
      modify_fs (insert (parent ++ [name])%list (File text))
  | Some (File _) =>
      raise (mkExn "NotADirectoryError"
               ("[Errno 20] Not a directory: '" +:+ path_str parent +:+ "/"
                +:+ name +:+ "'"))
  | None =>
      raise (mkExn "FileNotFoundError"
               ("[Errno 2] No such file or directory: '" +:+ path_str parent
                +:+ "/" +:+ name +:+ "'"))
  end.

(** [open(p, "rb")] and reading it whole, as [tarfile.open] starts. *)
Definition read_file (p : path) : Py string :=
  w <- get_world;;
  match fs w !! p with
  | Some (File c) => ret c
  | Some Dir =>
      raise (mkExn "IsADirectoryError"
               ("[Errno 21] Is a directory: '" +:+ path_str p +:+ "'"))
  | None =>
      raise (mkExn "FileNotFoundError"
               ("[Errno 2] No such file or directory: '" +:+ path_str p +:+ "'"))
  end.

(** [next(Path(d).iterdir())]: [StopIteration] on an empty directory. *)
Definition next_iterdir {E : Externals} (d : path) : Py path :=
  w <- get_world;;
  let entries := children d (fs w) in
  match entries !! (ext_iterdir_first w mod length entries)%nat with
  | Some p => ret p
  | None => raise (mkExn "StopIteration" EmptyString)
  end.

(** ** Calls to the collaborators, each leaving its event *)

Definition call_whoami {E : Externals} (token : option string) : Py string :=
  w <- get_world;;
  let r := ext_whoami w token in
  emit (EvWhoami token r);;; of_outcome r.

Definition call_urlopen_getcode {E : Externals} (url : string) : Py Z :=
  w <- get_world;;
  let r := ext_urlopen_getcode w url in
  emit (EvUrlOpen url r);;; of_outcome r.

Definition call_urlretrieve {E : Externals} (url : string) (filename : path)
    : Py unit :=
  w <- get_world;;
  let r := ext_urlretrieve w url in
  emit (EvUrlRetrieve url filename r);;;
  match r with
  | RetrieveFailed e => raise e
  | RetrievePartial e written =>
      modify_fs (insert filename (File written));;; raise e
  | RetrieveOk content => modify_fs (insert filename (File content))
  end.

Definition call_subprocess_run {E : Externals} (cmd : list string) (cwd : path)
    (env : gmap string string) : Py CompletedProcess :=
  w <- get_world;;
  let r := ext_subprocess_run w cmd cwd env in
  emit (EvSubprocessRun cmd cwd env r.1);;;
  put_fs r.2;;;
  of_outcome r.1.

Definition call_repo_exists {E : Externals} (repo_id : string) : Py bool :=
  w <- get_world;;
  let r := ext_repo_exists w repo_id in
  emit (EvRepoExists repo_id r);;; of_outcome r.

Definition call_create_repo {E : Externals} (repo_id : string)
    (exist_ok private : bool) : Py unit :=
  w <- get_world;;
  let r := ext_create_repo w repo_id exist_ok private in
  emit (EvCreateRepo repo_id exist_ok private r);;; of_outcome r.

Definition call_upload_folder {E : Externals} (folder_path repo_id : string)
    : Py unit :=
  w <- get_world;;
  let r := ext_upload_folder w folder_path repo_id in
  emit (EvUploadFolder folder_path repo_id r);;; of_outcome r.

(** ** [Config] *)

Record Config : Type := mkConfig {
  hf_token : string;
  hf_username : string;
  is_using_user_token : bool;
  transformers_version : string;
  hf_base_url : string;
  transformers_base_url : string;
  repo_path : path
}.

(** [Path(s)]. *)
Definition Path (s : string) : path := path_join [] s.

(** [cls(hf_token=..., hf_username=..., is_using_user_token=...)]: the other
    fields take the dataclass defaults. *)
Definition Config_init (token username : string) (user_supplied : bool)
    : Config :=
  {| hf_token := token;
     hf_username := username;
     is_using_user_token := user_supplied;
     transformers_version := "3.6.1";
     hf_base_url := "https://huggingface.co";
     transformers_base_url :=
       "https://github.com/huggingface/transformers.js/archive/refs";
     repo_path := Path "./transformers.js" |}.

Definition missing_token_error : PyException :=
  mkExn "ValueError"
    "When the user token is not provided, the system token must be set.".

(** Lines 40-45 of [from_env]: the account the models are published under. *)
Definition lookup_username {E : Externals}
    (user_token system_token : option string) : Py string :=
  if truthy user_token then call_whoami user_token
  else
    w <- get_world;;
    let space_author := os_environ w !! "SPACE_AUTHOR_NAME" in
    if truthy space_author then ret (default EmptyString space_author)
    else call_whoami system_token.

(** [Config.from_env]. *)
Definition from_env {E : Externals} : Py Config :=
  w <- get_world;;
  let system_token := secrets w !! "HF_TOKEN" in
  let user_token := session_state w !! "user_hf_token" in
  hf_username <- lookup_username user_token system_token;;
  let hf_token := py_or user_token system_token in
  if negb (truthy hf_token) then raise missing_token_error
  else
    ret (Config_init (default EmptyString hf_token) hf_username
           (truthy user_token)).

(** ** [ModelConverter] *)

(** [_get_ref_type]. *)
Definition _get_ref_type {E : Externals} (config : Config) : Py string :=
  let url :=
    transformers_base_url config +:+ "/tags/" +:+ transformers_version config
    +:+ ".tar.gz" in
  try_except
    (code <- call_urlopen_getcode url;;
     ret (if code =? 200 then "tags" else "heads"))
    (fun e =>
       log "warning"
         ("Failed to check tags, defaulting to heads: " +:+ exn_str e);;;
       ret "heads").

(** The body of the [with TemporaryDirectory()] block of
    [_extract_archive] (lines 98-102). *)
Definition extract_into {E : Externals} (config : Config)
    (archive_path tmp_dir : path) : Py unit :=
  content <- read_file archive_path;;
  members <- of_outcome (ext_tar_members content);;
  modify_fs (extractall tmp_dir members);;;
  extracted_folder <- next_iterdir tmp_dir;;
  modify_fs (rename extracted_folder (repo_path config)).

(** [_extract_archive]: the [with TemporaryDirectory()] block removes the
    scratch directory on every exit. *)
Definition _extract_archive {E : Externals} (config : Config)
    (archive_path : path) : Py unit :=
  w <- get_world;;
  let tmp_dir := "/" :: ext_mkdtemp w in
  modify_fs (insert tmp_dir Dir);;;
  try_finally (extract_into config archive_path tmp_dir)
    (modify_fs (rmtree tmp_dir)).

Definition archive_path_of (config : Config) : path :=
  Path ("./transformers_" +:+ transformers_version config +:+ ".tar.gz").

(** [RuntimeError(f"Failed to setup repository: {e}")]. *)
Definition provisioning_error (cause : PyException) : PyException :=
  mkExn "RuntimeError" ("Failed to setup repository: " +:+ exn_str cause).

(** [setup_repository]. *)
Definition setup_repository {E : Externals} (config : Config) : Py unit :=
  w <- get_world;;
  if path_exists (fs w) (repo_path config) then ret tt
  else
    ref_type <- _get_ref_type config;;
    let archive_url :=
      transformers_base_url config +:+ "/" +:+ ref_type +:+ "/"
      +:+ transformers_version config +:+ ".tar.gz" in
    let archive_path := archive_path_of config in
    try_finally
      (try_except
         (call_urlretrieve archive_url archive_path;;;
          _extract_archive config archive_path;;;
          log "info" "Repository downloaded and extracted successfully")
         (fun e => raise (provisioning_error e)))
      (modify_fs (unlink archive_path)).

(** Truthiness of [extra_args: List[str] = None]. *)
Definition args_truthy (extra_args : option (list string)) : bool :=
  match extra_args with
  | Some (_ :: _) => true
  | _ => false
  end.

(** [_run_conversion_subprocess]. *)
Definition _run_conversion_subprocess {E : Externals} (config : Config)
    (input_model_id : string) (extra_args : option (list string))
    : Py CompletedProcess :=
  let cmd :=
    [sys_executable; "-m"; "scripts.convert"; "--quantize"; "--model_id";
     input_model_id] in
  let cmd :=
    if args_truthy extra_args then (cmd ++ default [] extra_args)%list
    else cmd in
  call_subprocess_run cmd (repo_path config)
    {[ "HF_TOKEN" := hf_token config ]}.

Definition trust_rejected : PyException :=
  mkExn "Exception" "Trust Remote Code requires your own HuggingFace token.".

(** [convert_model]. *)
Definition convert_model {E : Externals} (config : Config)
    (input_model_id : string) (trust_remote_code : bool)
    : Py (bool * string) :=
  try_except
    (result <-
       (if trust_remote_code then
          (if negb (is_using_user_token config) then raise trust_rejected
           else ret tt);;;
          _run_conversion_subprocess config input_model_id
            (Some ["--trust_remote_code"])
        else _run_conversion_subprocess config input_model_id None);;
     if negb (returncode result =? 0) then ret (false, stderr result)
     else ret (true, stderr result))
    (fun e => ret (false, exn_str e)).

Definition newline : string := String (ascii_of_nat 10) EmptyString.

(** [generate_readme]. *)
Definition generate_readme (imi : string) : Py string :=
  name <- of_outcome (py_index_last (str_split slash imi));;
  ret ("---" +:+ newline
       +:+ "library_name: transformers.js" +:+ newline
       +:+ "base_model:" +:+ newline
       +:+ "- " +:+ imi +:+ newline
       +:+ "---" +:+ newline +:+ newline
       +:+ "# " +:+ name +:+ " (ONNX)" +:+ newline +:+ newline
       +:+ "This is an ONNX version of [" +:+ imi
       +:+ "](https://huggingface.co/" +:+ imi +:+ "). "
       +:+ "It was automatically converted and uploaded using "
       +:+ "[this space](https://huggingface.co/spaces/onnx-community/convert-to-onnx)."
       +:+ newline).

(** [model_folder_path = self.config.repo_path / "models" / input_model_id]. *)
Definition model_folder_path_of (config : Config) (input_model_id : string)
    : path :=
  path_join (path_join (repo_path config) "models") input_model_id.

(** [upload_model].  [readme_path] is the string
    [f"{model_folder_path}/README.md"]; it names the entry [README.md] of
    [model_folder_path]. *)
Definition upload_model {E : Externals} (config : Config)
    (input_model_id output_model_id : string) : Py (option string) :=
  let model_folder_path := model_folder_path_of config input_model_id in
  try_finally
    (try_except
       (call_create_repo output_model_id true false;;;
        let readme_path := (model_folder_path ++ ["README.md"])%list in
        w <- get_world;;
        (if negb (path_exists (fs w) readme_path) then
           open_write model_folder_path "README.md"
             (generate_readme input_model_id)
         else ret tt);;;
        call_upload_folder (path_str model_folder_path) output_model_id;;;
        ret None)
       (fun e => ret (Some (exn_str e))))
    (modify_fs (rmtree model_folder_path)).

(** ** [main] *)

(** The UTF-8 bytes of the party-popper sign that ends the "already
    converted" message. *)
Definition party_popper : string :=
  String (ascii_of_nat 240) (String (ascii_of_nat 159)
    (String (ascii_of_nat 142) (String (ascii_of_nat 137) EmptyString))).

(** Lines 218-230 of [main]: whether the upload goes to the source
    repository, and the destination id.  The check box is only put on the
    page when the configured user owns the source repository. *)
Definition resolve_output_model_id (config : Config) (ui : UI)
    (input_model_id : string) : Py (bool * string) :=
  owner <- of_outcome (py_index_first (str_split slash input_model_id));;
  same_repo <-
    (if String.eqb (hf_username config) owner then
       st_call "checkbox"
         ["Do you want to upload the ONNX weights to the same repository?"];;;
       ret (ui_same_repo ui)
     else ret false);;
  model_name <- of_outcome (py_index_last (str_split slash input_model_id));;
  let output_model_id := hf_username config +:+ "/" +:+ model_name in
  let output_model_id :=
    if negb same_repo then output_model_id +:+ "-ONNX" else output_model_id in
  ret (same_repo, output_model_id).

(** Lines 253-264 of [main]: the conversion succeeded; upload. *)
Definition upload_stage {E : Externals} (converter : Config)
    (input_model_id output_model_id output_model_url stderr : string)
    : Py unit :=
  st_call "success" ["Conversion successful!"];;;
  st_call "code" [stderr];;;
  st_call "spinner" ["Uploading model..."];;;
  error <- upload_model converter input_model_id output_model_id;;
  if truthy error then
    st_call "error" ["Upload failed: " +:+ default EmptyString error]
  else
    st_call "success" ["Upload successful!"];;;
    st_call "write" ["You can now go and view the model on Hugging Face!"];;;
    st_call "link_button"
      ["Go to " +:+ output_model_id; output_model_url; "primary"].

(** Lines 245-264 of [main]: convert, then upload. *)
Definition convert_and_upload {E : Externals} (converter : Config)
    (input_model_id : string) (trust_remote_code : bool)
    (output_model_id output_model_url : string) : Py unit :=
  st_call "spinner" ["Converting model..."];;;
  conv <- convert_model converter input_model_id trust_remote_code;;
  let success := conv.1 in
  let stderr := conv.2 in
  if negb success then st_call "error" ["Conversion failed: " +:+ stderr]
  else
    upload_stage converter input_model_id output_model_id output_model_url
      stderr.

(** Lines 232-264 of [main]: the existence check, the announcement of the
    destination, and the work itself.  An early [return] is the branch that
    ends without a continuation. *)
Definition publish_unless_present {E : Externals} (config : Config) (ui : UI)
    (input_model_id : string) (trust_remote_code same_repo : bool)
    (output_model_id : string) : Py unit :=
  let converter := config in
  let output_model_url := hf_base_url config +:+ "/" +:+ output_model_id in
  already <-
    (if negb same_repo then call_repo_exists output_model_id else ret false);;
  if already then
    st_call "write"
      ["This model has already been converted! " +:+ party_popper];;;
    st_call "link_button"
      ["Go to " +:+ output_model_id; output_model_url; "primary"]
  else
    st_call "write" ["URL where the model will be converted and uploaded to:"];;;
    st_call "code" [output_model_url; "plaintext"];;;
    st_call "button" ["Proceed"; "primary"];;;
    if negb (ui_proceed ui) then ret tt
    else
      convert_and_upload converter input_model_id trust_remote_code
        output_model_id output_model_url.

(** Lines 200-216 of [main]: the widgets that collect the request.  The
    result is [None] when the id field is still empty and the script stops
    there. *)
Definition collect_request (ui : UI) : Py (option (string * bool)) :=
  st_call "text_input"
    ["Enter the Hugging Face model ID to convert. Example: `EleutherAI/pythia-14m`"];;;
  let input_model_id := ui_model_id ui in
  if String.eqb input_model_id EmptyString then ret None
  else
    st_call "text_input"
      ["Optional: Your Hugging Face write token. Fill it if you want to upload the model under your account.";
       "password"; "user_hf_token"];;;
    st_call "toggle" ["Optional: Trust Remote Code."];;;
    let trust_remote_code := ui_trust_remote_code ui in
    (if trust_remote_code then
       st_call "warning"
         ["This option should only be enabled for repositories you trust and in which you have read the code, as it will execute arbitrary code present in the model repository. When this option is enabled, you must use your own Hugging Face write token."]
     else ret tt);;;
    ret (Some (input_model_id, trust_remote_code)).

(** [main]. *)
Definition main {E : Externals} (ui : UI) : Py unit :=
  st_call "write" ["## Convert a Hugging Face model to ONNX"];;;
  try_except
    (config <- from_env;;
     let converter := config in
     setup_repository converter;;;
     request <- collect_request ui;;
     match request with
     | None => ret tt
     | Some (input_model_id, trust_remote_code) =>
         target <- resolve_output_model_id config ui input_model_id;;
         publish_unless_present config ui input_model_id trust_remote_code
           target.1 target.2
     end)
    (fun e =>
       log "exception" "Application error";;;
       st_call "error" ["An error occurred: " +:+ exn_str e]).

(** ** Reading a run *)

(** The events a run from [w] to [w'] added. *)
Definition new_events (w w' : World) : list Event :=
  drop (length (trace w)) (trace w').

(** Every event the statement [m] adds satisfies [P]. *)
Definition emits {A} (P : Event -> Prop) (m : Py A) : Prop :=
  forall w, exists evs,
    trace (m w).2 = (trace w ++ evs)%list /\ Forall P evs.

Fixpoint has_char (sep : ascii) (s : string) : bool :=
  match s with
  | EmptyString => false
  | String c rest => Ascii.eqb c sep || has_char sep rest
  end.

Definition has_slash : string -> bool := has_char slash.

Definition is_subprocess_run (e : Event) : Prop :=
  match e with EvSubprocessRun _ _ _ _ => True | _ => False end.


Definition is_create_repo (e : Event) : Prop :=
  match e with EvCreateRepo _ _ _ _ => True | _ => False end.

Definition is_upload_folder (e : Event) : Prop :=
  match e with EvUploadFolder _ _ _ => True | _ => False end.

Definition is_st (e : Event) : Prop :=
  match e with EvSt _ _ => True | _ => False end.

(** The child-process requests among some events: command, working
    directory and environment. *)
Definition spawn_requests (evs : list Event)
    : list (list string * path * gmap string string) :=
  omap (fun e =>
          match e with
          | EvSubprocessRun cmd cwd env _ => Some (cmd, cwd, env)
          | _ => None
          end) evs.

(** A conversion that did not succeed: a non-zero exit code, or no exit code
    at all. *)
Definition conversion_failed (r : Outcome CompletedProcess) : Prop :=
  match r with
  | Return cp => returncode cp <> 0
  | Raise _ => True
  end.

(** The text a conversion attempt leaves as its diagnostic. *)
Definition diagnostic_of (r : Outcome CompletedProcess) : string :=
  match r with
  | Return cp => stderr cp
  | Raise e => exn_str e
  end.

(** A run of [m] adds events [pre ++ mid ++ post]: [P] holds of every event
    of [pre] and [post], and [M] of the list [mid]. *)
Definition shaped {A} (P : Event -> Prop) (M : list Event -> Prop)
    (m : Py A) : Prop :=
  forall w, exists pre mid post,
    trace (m w).2 = (trace w ++ pre ++ mid ++ post)%list
    /\ Forall P pre /\ M mid /\ Forall P post.

(** All the events of [m] form a list that satisfies [M]. *)
Definition adds {A} (M : list Event -> Prop) (m : Py A) : Prop :=
  forall w, exists mid, trace (m w).2 = (trace w ++ mid)%list /\ M mid.

(** The check box of line 219. *)
Definition checkbox_event : Event :=
  EvSt "checkbox"
    ["Do you want to upload the ONNX weights to the same repository?"].

(** Lines 218-264 of [main], as [main] composes them. *)
Definition resolve_and_publish {E : Externals} (config : Config) (ui : UI)
    (input_model_id : string) (trust_remote_code : bool) : Py unit :=
  target <- resolve_output_model_id config ui input_model_id;;
  publish_unless_present config ui input_model_id trust_remote_code
    target.1 target.2.

(** Lines 198-264 of [main]: what the [try] block does once the
    configuration is there, as [main] composes it. *)
Definition main_after_config {E : Externals} (config : Config) (ui : UI)
    : Py unit :=
  setup_repository config;;;
  request <- collect_request ui;;
  match request with
  | None => ret tt
  | Some (input_model_id, trust_remote_code) =>
      resolve_and_publish config ui input_model_id trust_remote_code
  end.

(** Lines 266-268 of [main]: the handler of the [try] block. *)
Definition report_exception (e : PyException) : Py unit :=
  log "exception" "Application error";;;
  st_call "error" ["An error occurred: " +:+ exn_str e].

(** The first widget call of [main] (line 193). *)
Definition title_event : Event :=
  EvSt "write" ["## Convert a Hugging Face model to ONNX"].

(** The scratch directory [_extract_archive] works in, when started in [w]. *)
Definition scratch_dir {E : Externals} (w : World) : path :=
  "/" :: ext_mkdtemp w.

(** The address the tag probe of [_get_ref_type] asks for. *)
Definition tag_url (config : Config) : string :=
  transformers_base_url config +:+ "/tags/" +:+ transformers_version config
  +:+ ".tar.gz".

(** The reference type [_get_ref_type] settles on for a probe outcome. *)
Definition ref_type_of (probe : Outcome Z) : string :=
  match probe with
  | Return code => if code =? 200 then "tags" else "heads"
  | Raise _ => "heads"
  end.

(** A path segment that [pathlib] keeps as it is. *)
Definition clean_segment (seg : string) : Prop :=
  has_slash seg = false /\ seg <> EmptyString /\ seg <> ".".

(** What a run shows and does while it waits for a request or reports an
    error: no existence check, no conversion, no publishing, no check box,
    and only the title, the id field and an error message on the page. *)
Definition idle_event (ev : Event) : Prop :=
  match ev with
  | EvRepoExists _ _ | EvSubprocessRun _ _ _ _ | EvCreateRepo _ _ _ _
  | EvUploadFolder _ _ _ => False
  | EvSt call _ => call = "write" \/ call = "text_input" \/ call = "error"
  | _ => True
  end.

(** The world after [report_exception e]. *)
Definition reported (e : PyException) (w : World) : World :=
  add_event (EvSt "error" ["An error occurred: " +:+ exn_str e])
    (add_event (EvLog "exception" "Application error") w).

(** Any event but a [whoami] call that raised. *)
Definition no_whoami_failure (ev : Event) : Prop :=
  forall token e, ev <> EvWhoami token (Raise e).




(** Any event but a download. *)
Definition not_retrieve (e : Event) : Prop :=
  forall u f r, e <> EvUrlRetrieve u f r.

(** A failed conversion ends the run: nothing is published and the failure
    is reported with the diagnostic. *)
Definition failure_stops (mid : list Event) : Prop :=
  forall cmd cwd env r,
    In (EvSubprocessRun cmd cwd env r) mid ->
    conversion_failed r ->
    Forall (fun e => ~ is_create_repo e /\ ~ is_upload_folder e) mid
    /\ In (EvSt "error" ["Conversion failed: " +:+ diagnostic_of r]) mid.

Definition before_conversion (e : Event) : Prop :=
  ~ is_subprocess_run e /\ ~ is_create_repo e /\ ~ is_upload_folder e.

(** The place of a call to a collaborator in the order of a run; page
    output and log lines have none. *)
Definition stage_of (e : Event) : option nat :=
  match e with
  | EvWhoami _ _ => Some 0%nat
  | EvUrlOpen _ _ => Some 1%nat
  | EvUrlRetrieve _ _ _ => Some 2%nat
  | EvRepoExists _ _ => Some 3%nat
  | EvSubprocessRun _ _ _ _ => Some 4%nat
  | EvCreateRepo _ _ _ _ => Some 5%nat
  | EvUploadFolder _ _ _ => Some 6%nat
  | EvLog _ _ | EvSt _ _ => None
  end.

Definition call_stages (evs : list Event) : list nat := omap stage_of evs.

Definition quiet (e : Event) : Prop := stage_of e = None.

(** The calls among [evs] are in strictly increasing order of stage, all of
    them at stages from [lo] up to, not including, [hi]. *)
Definition in_window (lo hi : nat) (evs : list Event) : Prop :=
  StronglySorted lt (call_stages evs)
  /\ Forall (fun n => (lo <= n < hi)%nat) (call_stages evs).

Definition paced {A} (lo hi : nat) (m : Py A) : Prop :=
  adds (in_window lo hi) m.

(** Any event but an existence check that raised. *)
Definition no_failed_check (ev : Event) : Prop :=
  forall dest e, ev <> EvRepoExists dest (Raise e).

(** A failed existence check ends [m]: [m] raises the exception of the
    check, and has started no work. *)
Definition stops_at_failed_check {A} (m : Py A) : Prop :=
  forall w, exists l,
    trace (m w).2 = (trace w ++ l)%list
    /\ forall dest e,
         In (EvRepoExists dest (Raise e)) l ->
         (m w).1 = Raise e /\ Forall before_conversion l.

(** ** Sample worlds and collaborators for the worked examples *)

Definition empty_world : World := mkWorld ∅ ∅ ∅ ∅ [].

(** Collaborators that answer every call the same way; the child process
    adds [outputs] to the filesystem. *)
Definition scripted (who : Outcome string) (code : Outcome Z)
    (retrieved : RetrieveResult) (members : Outcome (list (path * Node)))
    (ran : Outcome CompletedProcess) (outputs : gmap path Node)
    (found : Outcome bool) (created uploaded : Outcome unit) : Externals :=
  {| sys_executable := "/usr/bin/python3";
     ext_whoami := fun _ _ => who;
     ext_urlopen_getcode := fun _ _ => code;
     ext_urlretrieve := fun _ _ => retrieved;
     ext_tar_members := fun _ => members;
     ext_mkdtemp := fun _ => ["tmp"; "tmpk3x9q"];
     ext_iterdir_first := fun _ => 0%nat;
     ext_subprocess_run := fun w _ _ _ => (ran, outputs ∪ fs w);
     ext_repo_exists := fun _ _ => found;
     ext_create_repo := fun _ _ _ _ => created;
     ext_upload_folder := fun _ _ _ => uploaded |}.

Definition http_error (msg : string) : PyException := mkExn "HTTPError" msg.

Definition pythia_folder : path :=
  ["transformers.js"; "models"; "EleutherAI"; "pythia-14m"].

(** Everything works: the token is known, the tag exists, the archive holds
    one directory, the conversion exits with code 0 and leaves its output. *)
Definition all_fine : Externals :=
  scripted (Return "alice") (Return 200) (RetrieveOk "archive-bytes")
    (Return [(["transformers.js-3.6.1"], Dir);
             (["transformers.js-3.6.1"; "scripts"], Dir)])
    (Return (mkCompleted 0 EmptyString "done"))
    {[ pythia_folder := Dir;
       (pythia_folder ++ ["onnx"])%list := Dir;
       (pythia_folder ++ ["onnx"; "model_quantized.onnx"])%list := File "onnx-bytes" ]}
    (Return false) (Return tt) (Return tt).

(** The conversion child exits with code 1 after printing [OOM]. *)
Definition out_of_memory : Externals :=
  scripted (Return "alice") (Return 200) (RetrieveOk "archive-bytes")
    (Return [(["transformers.js-3.6.1"], Dir)])
    (Return (mkCompleted 1 EmptyString "OOM")) ∅ (Return false)
    (Return tt) (Return tt).

(** The registry rejects the token; the network is down. *)
Definition all_broken : Externals :=
  scripted (Raise (http_error "401 Client Error: Unauthorized"))
    (Raise (http_error "HTTP Error 404: Not Found"))
    (RetrieveFailed (mkExn "URLError" "<urlopen error timed out>"))
    (Raise (mkExn "ReadError" "not a gzip file"))
    (Raise (mkExn "FileNotFoundError" "[Errno 2] No such file or directory"))
    ∅ (Raise (http_error "500 Server Error"))
    (Raise (http_error "403 Forbidden")) (Raise (http_error "403 Forbidden")).


Definition config_alice (user_supplied : bool) : Config :=
  Config_init "hf_secret" "alice" user_supplied.

(** A world with a system token, a space author and the toolchain already
    unpacked. *)
Definition ready_world : World :=
  mkWorld {[ ["transformers.js"] := Dir ]}
          {[ "SPACE_AUTHOR_NAME" := "alice"; "HOME" := "/home/user" ]}
          {[ "HF_TOKEN" := "hf_secret" ]} ∅ [].

(** The same without the toolchain. *)
Definition fresh_world : World :=
  mkWorld ∅ {[ "SPACE_AUTHOR_NAME" := "alice" ]}
          {[ "HF_TOKEN" := "hf_secret" ]} ∅ [].

(** The operator pasted a token of their own. *)
Definition user_token_world : World :=
  mkWorld {[ ["transformers.js"] := Dir ]} ∅ ∅
          {[ "user_hf_token" := "hf_user" ]} [].

Definition ui_pythia : UI := mkUI "EleutherAI/pythia-14m" false false true.
Definition ui_own (reuse : bool) : UI := mkUI "alice/foo" false reuse true.

(** The archive was downloaded; a file of the operator lies next to it. *)
Definition archive_world : World :=
  mkWorld {[ ["transformers_3.6.1.tar.gz"] := File "archive-bytes";
             ["notes.txt"] := File "keep me" ]}
          {[ "SPACE_AUTHOR_NAME" := "alice" ]}
          {[ "HF_TOKEN" := "hf_secret" ]} ∅ [].

(** The archive parses, but holds no member. *)
Definition empty_archive : Externals :=
  scripted (Return "alice") (Return 200) (RetrieveOk "archive-bytes")
    (Return []) (Return (mkCompleted 0 EmptyString "done")) ∅ (Return false)
    (Return tt) (Return tt).

(** The conversion has left its output: the model folder without README. *)
Definition converted_world : World :=
  mkWorld {[ ["transformers.js"] := Dir;
             pythia_folder := Dir;
             (pythia_folder ++ ["onnx"])%list := Dir ]}
          {[ "SPACE_AUTHOR_NAME" := "alice" ]}
          {[ "HF_TOKEN" := "hf_secret" ]} ∅ [].

(** The upload times out with an exception that carries no message. *)
Definition silent_upload_failure : Externals :=
  scripted (Return "alice") (Return 200) (RetrieveOk "archive-bytes")
    (Return [(["transformers.js-3.6.1"], Dir)])
    (Return (mkCompleted 0 EmptyString "done")) ∅ (Return false)
    (Return tt) (Raise (mkExn "TimeoutError" EmptyString)).

(** * Proofs *)

(** ** The monad and the trace *)

Section Trace.
Context {A B : Type}.
Implicit Types (P : Event -> Prop) (w : World).

Lemma new_events_app w w' evs :
  trace w' = (trace w ++ evs)%list -> new_events w w' = evs.
Proof. intros H. unfold new_events. rewrite H. apply drop_app_length. Qed.

Lemma emits_ret P (a : A) : emits P (ret a).
Proof. intros w. exists []. cbn. by rewrite app_nil_r. Qed.

Lemma emits_raise P e : emits P (@raise A e).
Proof. intros w. exists []. cbn. by rewrite app_nil_r. Qed.

Lemma emits_of_outcome P (r : Outcome A) : emits P (of_outcome r).
Proof. intros w. exists []. cbn. by rewrite app_nil_r. Qed.

Lemma emits_bind P (m : Py A) (k : A -> Py B) :
  emits P m -> (forall a, emits P (k a)) -> emits P (bind m k).
Proof.
  intros Hm Hk w. unfold bind.
  destruct (Hm w) as (evs1 & E1 & F1).
  destruct (m w) as [[a|e] w1]; cbn in *.
  - destruct (Hk a w1) as (evs2 & E2 & F2).
    exists (evs1 ++ evs2)%list. rewrite E2, E1, app_assoc.
    split; [done | by apply Forall_app].
  - by exists evs1.
Qed.

Lemma emits_try_except P (m : Py A) h :
  emits P m -> (forall e, emits P (h e)) -> emits P (try_except m h).
Proof.
  intros Hm Hh w. unfold try_except.
  destruct (Hm w) as (evs1 & E1 & F1).
  destruct (m w) as [[a|e] w1]; cbn in *.
  - by exists evs1.
  - destruct (Hh e w1) as (evs2 & E2 & F2).
    exists (evs1 ++ evs2)%list. rewrite E2, E1, app_assoc.
    split; [done | by apply Forall_app].
Qed.

Lemma emits_try_finally P (m : Py A) fin :
  emits P m -> emits P fin -> emits P (try_finally m fin).
Proof.
  intros Hm Hf w. unfold try_finally.
  destruct (Hm w) as (evs1 & E1 & F1).
  destruct (m w) as [r w1]; cbn in *.
  destruct (Hf w1) as (evs2 & E2 & F2).
  exists (evs1 ++ evs2)%list.
  destruct (fin w1) as [[[]|e] w2]; cbn in *;
    rewrite E2, E1, app_assoc; (split; [done | by apply Forall_app]).
Qed.

Lemma emits_weaken P (Q : Event -> Prop) (m : Py A) :
  (forall e, P e -> Q e) -> emits P m -> emits Q m.
Proof.
  intros HPQ Hm w. destruct (Hm w) as (evs & E & F).
  exists evs. split; [done | by eapply Forall_impl].
Qed.
End Trace.

Lemma emits_emit P e : P e -> emits P (emit e).
Proof. intros He w. exists [e]. cbn. split; [done | by constructor]. Qed.

Lemma emits_get_world P : emits P get_world.
Proof. intros w. exists []. cbn. by rewrite app_nil_r. Qed.

Lemma emits_modify_fs P f : emits P (modify_fs f).
Proof. intros w. exists []. cbn. by rewrite app_nil_r. Qed.

Lemma emits_put_fs P f : emits P (put_fs f).
Proof. intros w. exists []. cbn. by rewrite app_nil_r. Qed.

(** One step of the trace calculus; [tac] settles the side condition on an
    emitted event. *)
Ltac emits_step tac :=
  lazymatch goal with
  | |- emits _ (bind _ _) => apply emits_bind; [ | intros ? ]
  | |- emits _ (ret _) => apply emits_ret
  | |- emits _ (raise _) => apply emits_raise
  | |- emits _ (of_outcome _) => apply emits_of_outcome
  | |- emits _ get_world => apply emits_get_world
  | |- emits _ (modify_fs _) => apply emits_modify_fs
  | |- emits _ (put_fs _) => apply emits_put_fs
  | |- emits _ (emit _) => apply emits_emit; tac
  | |- emits _ (st_call _ _) => apply emits_emit; tac
  | |- emits _ (log _ _) => apply emits_emit; tac
  | |- emits _ (try_except _ _) => apply emits_try_except; [ | intros ? ]
  | |- emits _ (try_finally _ _) => apply emits_try_finally
  | |- emits _ (if ?b then _ else _) => destruct b
  | |- emits _ (match ?x with _ => _ end) => destruct x
  end.

Ltac emits_auto tac := repeat (cbv zeta; emits_step tac).

(** ** Strings *)

Lemma str_split_nonempty sep s : str_split sep s <> [].
Proof.
  destruct s as [|c rest]; cbn; [done|].
  destruct (Ascii.eqb c sep); [done|].
  by destruct (str_split sep rest).
Qed.

Lemma str_split_no_sep sep s : has_char sep s = false -> str_split sep s = [s].
Proof.
  induction s as [|c rest IH]; cbn; [done|].
  intros [Hc Hrest]%orb_false_iff. rewrite Hc, (IH Hrest). done.
Qed.

Lemma append_cons c s t : String c s +:+ t = String c (s +:+ t).
Proof. reflexivity. Qed.

Lemma append_empty_l t : EmptyString +:+ t = t.
Proof. reflexivity. Qed.

Lemma append_assoc s t u : (s +:+ t) +:+ u = s +:+ t +:+ u.
Proof.
  induction s as [|c s IH]; [done|].
  by rewrite !append_cons, IH.
Qed.

Lemma str_split_at_sep sep s rest :
  has_char sep s = false ->
  str_split sep (s +:+ String sep rest) = s :: str_split sep rest.
Proof.
  induction s as [|c s' IH].
  - intros _. rewrite append_empty_l. cbn. by rewrite Ascii.eqb_refl.
  - cbn. intros [Hc Hs']%orb_false_iff.
    rewrite append_cons. cbn. rewrite Hc, (IH Hs'). done.
Qed.

Lemma str_split_no_slash s : has_slash s = false -> str_split slash s = [s].
Proof. apply str_split_no_sep. Qed.

Lemma str_split_cut s rest :
  has_slash s = false ->
  str_split slash (s +:+ String slash rest) = s :: str_split slash rest.
Proof. apply str_split_at_sep. Qed.

Lemma py_index_first_split s :
  exists seg, py_index_first (str_split slash s) = Return seg.
Proof.
  pose proof (str_split_nonempty slash s).
  destruct (str_split slash s) as [|seg segs]; [done|]. by exists seg.
Qed.

Lemma py_index_last_split s :
  exists seg, py_index_last (str_split slash s) = Return seg.
Proof.
  pose proof (str_split_nonempty slash s) as Hne. unfold py_index_last.
  destruct (last (str_split slash s)) as [seg|] eqn:Hlast; [by exists seg|].
  by apply last_None in Hlast.
Qed.

Example split_two :
  str_split slash "EleutherAI/pythia-14m" = ["EleutherAI"; "pythia-14m"].
Proof. reflexivity. Qed.

Example split_none : str_split slash "gpt2" = ["gpt2"].
Proof. reflexivity. Qed.

Example split_edges :
  str_split slash "/a//b/"
  = [EmptyString; "a"; EmptyString; "b"; EmptyString].
Proof. reflexivity. Qed.

Example model_folder_example :
  model_folder_path_of (Config_init "t" "u" false) "EleutherAI/pythia-14m"
  = ["transformers.js"; "models"; "EleutherAI"; "pythia-14m"].
Proof. reflexivity. Qed.

(** ** Destination naming *)

(** C1.  For a source id [ns/name] the destination is computed from the id,
    the configured user name and the check box alone: [username/name] when
    the user owns the source and ticks the box, [username/name-ONNX]
    otherwise; with the three examples of the specification. *)
Theorem destination_naming_rule :
  (forall (config : Config) (ui : UI) (ns name : string) (w : World),
     has_slash ns = false -> has_slash name = false ->
     let reuse := String.eqb (hf_username config) ns && ui_same_repo ui in
     (resolve_output_model_id config ui (ns +:+ "/" +:+ name) w).1
     = Return (reuse,
               if reuse then hf_username config +:+ "/" +:+ name
               else hf_username config +:+ "/" +:+ name +:+ "-ONNX"))
  /\ (forall (config : Config) (ui : UI) (w : World),
       hf_username config = "alice" ->
       (resolve_output_model_id config ui "alice/foo" w).1
       = Return (ui_same_repo ui,
                 if ui_same_repo ui then "alice/foo" else "alice/foo-ONNX"))
  /\ (forall (config : Config) (ui : UI) (w : World),
       hf_username config = "alice" ->
       (resolve_output_model_id config ui "bob/foo" w).1
       = Return (false, "alice/foo-ONNX")).
Proof.
  split; [|split].
  - intros config ui ns name w Hns Hname reuse. subst reuse.
    unfold resolve_output_model_id, bind, of_outcome.
    change ("/" +:+ name) with (String slash name).
    rewrite (str_split_cut ns name Hns), (str_split_no_slash name Hname).
    cbn. rewrite !append_assoc.
    destruct (String.eqb (hf_username config) ns); cbn; [|done].
    by destruct (ui_same_repo ui).
  - intros config ui w Huser.
    unfold resolve_output_model_id, bind, of_outcome. rewrite Huser. cbn.
    by destruct (ui_same_repo ui).
  - intros config ui w Huser.
    unfold resolve_output_model_id, bind, of_outcome. rewrite Huser. done.
Qed.

(** C10.  The naming step never fails, whatever the id; for an id without
    ["/"] both segments are the id itself: the check box is shown exactly
    when the id equals the user name, and the destination is
    [username/id], with ["-ONNX"] unless the box is shown and ticked. *)
Theorem destination_naming_total :
  forall (config : Config) (ui : UI) (input_model_id : string) (w : World),
    (exists target w',
       resolve_output_model_id config ui input_model_id w
       = (Return target, w'))
    /\ (has_slash input_model_id = false ->
        let offered := String.eqb (hf_username config) input_model_id in
        let reuse := offered && ui_same_repo ui in
        resolve_output_model_id config ui input_model_id w
        = (Return (reuse,
                   if reuse then hf_username config +:+ "/" +:+ input_model_id
                   else hf_username config +:+ "/" +:+ input_model_id
                        +:+ "-ONNX"),
           if offered then
             add_event
               (EvSt "checkbox"
                  ["Do you want to upload the ONNX weights to the same repository?"])
               w
           else w)).
Proof.
  intros config ui id w. split.
  - unfold resolve_output_model_id, bind, of_outcome.
    destruct (py_index_first_split id) as [owner ->].
    destruct (py_index_last_split id) as [name ->].
    destruct (String.eqb (hf_username config) owner); cbn; eauto.
  - intros Hid offered reuse. subst offered reuse.
    unfold resolve_output_model_id, bind, of_outcome.
    rewrite (str_split_no_slash id Hid). cbn. rewrite !append_assoc.
    destruct (String.eqb (hf_username config) id); cbn; [|done].
    by destruct (ui_same_repo ui).
Qed.

Lemma destination_naming_rule_witness :
  (resolve_output_model_id (config_alice true) (ui_own true)
     ("alice" +:+ "/" +:+ "foo") empty_world).1
  = Return (true, "alice/foo").
Proof.
  exact (proj1 destination_naming_rule (config_alice true) (ui_own true)
           "alice" "foo" empty_world eq_refl eq_refl).
Defined.

Lemma destination_naming_total_witness :
  resolve_output_model_id (config_alice false) ui_pythia "gpt2" empty_world
  = (Return (false, "alice/gpt2-ONNX"), empty_world).
Proof.
  exact (proj2 (destination_naming_total (config_alice false) ui_pythia "gpt2"
                  empty_world) eq_refl).
Defined.

(** ** Conversion *)

(** C2.  Trust Remote Code without the operator's own token: [convert_model]
    returns [(False, diagnostic)], the diagnostic names the token
    requirement, and the world is left as it was, so no child process was
    started. *)
Theorem trust_without_user_token_rejected {E : Externals} :
  forall (config : Config) (input_model_id : string) (w : World),
    is_using_user_token config = false ->
    exists diagnostic,
      convert_model config input_model_id true w
      = (Return (false, diagnostic), w)
      /\ contains_str "token" diagnostic = true
      /\ spawn_requests
           (new_events w (convert_model config input_model_id true w).2) = [].
Proof.
  intros config id w Hsys. exists (exn_str trust_rejected).
  assert (Hrun : convert_model config id true w
                 = (Return (false, exn_str trust_rejected), w)).
  { unfold convert_model, try_except, bind. rewrite Hsys. done. }
  rewrite Hrun. split; [done|]. split; [done|].
  cbn. unfold new_events. by rewrite drop_all.
Qed.

Lemma trust_without_user_token_rejected_witness :
  exists diagnostic,
    convert_model (E := all_fine) (config_alice false) "bob/foo" true
      ready_world
    = (Return (false, diagnostic), ready_world)
    /\ contains_str "token" diagnostic = true
    /\ spawn_requests
         (new_events ready_world
            (convert_model (E := all_fine) (config_alice false) "bob/foo" true
               ready_world).2) = [].
Proof.
  exact (trust_without_user_token_rejected (E := all_fine)
           (config_alice false) "bob/foo" ready_world eq_refl).
Defined.

(** What [convert_model] does, in full: either the request is refused and
    nothing happens, or one child process is run and its outcome is turned
    into the returned pair. *)
Lemma convert_model_run {E : Externals} (config : Config)
    (input_model_id : string) (trust_remote_code : bool) (w : World) :
  let cmd :=
    ([sys_executable; "-m"; "scripts.convert"; "--quantize"; "--model_id";
      input_model_id]
     ++ (if trust_remote_code then ["--trust_remote_code"] else []))%list in
  let cwd := repo_path config in
  let env : gmap string string := {[ "HF_TOKEN" := hf_token config ]} in
  let r := ext_subprocess_run w cmd cwd env in
  convert_model config input_model_id trust_remote_code w
  = if trust_remote_code && negb (is_using_user_token config) then
      (Return (false, exn_str trust_rejected), w)
    else
      (Return (match r.1 with
               | Return cp => (returncode cp =? 0, stderr cp)
               | Raise e => (false, exn_str e)
               end),
       set_fs r.2 (add_event (EvSubprocessRun cmd cwd env r.1) w)).
Proof.
  intros cmd cwd env r. subst r cmd cwd env.
  unfold convert_model, try_except, bind, _run_conversion_subprocess,
    call_subprocess_run, bind, get_world, emit, put_fs, of_outcome.
  destruct trust_remote_code; cbn.
  - destruct (is_using_user_token config); cbn; [|done].
    destruct (ext_subprocess_run _ _ _ _) as [[cp|e] f]; cbn; [|done].
    by destruct (returncode cp =? 0).
  - destruct (ext_subprocess_run _ _ _ _) as [[cp|e] f]; cbn; [|done].
    by destruct (returncode cp =? 0).
Qed.

Lemma new_events_refl w : new_events w w = [].
Proof. unfold new_events. apply drop_all. Qed.

Lemma new_events_set_fs_add_event w f e :
  new_events w (set_fs f (add_event e w)) = [e].
Proof. apply new_events_app. done. Qed.

(** C9.  Whenever [convert_model] starts the child process, it is started in
    the toolchain checkout, with the environment [{HF_TOKEN: token}] of one
    variable, and with the command [python -m scripts.convert --quantize
    --model_id id], followed by [--trust_remote_code] exactly when trust was
    asked for; the request is the same in every world, whatever the
    environment of the parent process. *)
Theorem child_process_request {E : Externals} :
  forall (config : Config) (input_model_id : string)
         (trust_remote_code : bool) (w : World),
    let env : gmap string string := {[ "HF_TOKEN" := hf_token config ]} in
    let cmd :=
      ([sys_executable; "-m"; "scripts.convert"; "--quantize"; "--model_id";
        input_model_id]
       ++ (if trust_remote_code then ["--trust_remote_code"] else []))%list in
    spawn_requests
      (new_events w
         (convert_model config input_model_id trust_remote_code w).2)
    = (if trust_remote_code && negb (is_using_user_token config) then []
       else [(cmd, repo_path config, env)])
    /\ dom env = ({[ "HF_TOKEN" ]} : gset string)
    /\ env !! "HF_TOKEN" = Some (hf_token config)
    /\ (forall w2 : World,
          spawn_requests
            (new_events w2
               (convert_model config input_model_id trust_remote_code w2).2)
          = spawn_requests
              (new_events w
                 (convert_model config input_model_id trust_remote_code w).2)).
Proof.
  intros config id trust w env cmd.
  assert (Hreq : forall w0,
    spawn_requests
      (new_events w0 (convert_model config id trust w0).2)
    = (if trust && negb (is_using_user_token config) then []
       else [(cmd, repo_path config, env)])).
  { intros w0. rewrite convert_model_run.
    destruct (trust && negb (is_using_user_token config)); cbn [snd].
    - by rewrite new_events_refl.
    - by rewrite new_events_set_fs_add_event. }
  split; [apply Hreq|]. split; [apply dom_singleton_L|].
  split; [apply lookup_singleton_eq|].
  intros w2. by rewrite !Hreq.
Qed.

(** ** Which events each part of the program can add *)

Ltac emits_side :=
  first [ done
        | match goal with H : _ |- _ => solve [apply H; discriminate] end ].

Lemma call_whoami_emits {E : Externals} P token :
  (forall tok r, P (EvWhoami tok r)) -> emits P (call_whoami token).
Proof. intros HP. unfold call_whoami. emits_auto emits_side. Qed.

Lemma from_env_emits {E : Externals} P :
  (forall tok r, P (EvWhoami tok r)) -> emits P from_env.
Proof.
  intros HP. unfold from_env, lookup_username, call_whoami.
  emits_auto emits_side.
Qed.

Lemma setup_repository_emits {E : Externals} P config :
  (forall url r, P (EvUrlOpen url r)) ->
  (forall url f r, P (EvUrlRetrieve url f r)) ->
  (forall level msg, P (EvLog level msg)) ->
  emits P (setup_repository config).
Proof.
  intros H1 H2 H3.
  unfold setup_repository, _get_ref_type, _extract_archive, extract_into,
    next_iterdir, read_file, call_urlopen_getcode, call_urlretrieve.
  emits_auto emits_side.
Qed.

Lemma convert_model_emits {E : Externals} P config id trust :
  (forall cmd cwd env r, P (EvSubprocessRun cmd cwd env r)) ->
  emits P (convert_model config id trust).
Proof.
  intros HP.
  unfold convert_model, _run_conversion_subprocess, call_subprocess_run.
  emits_auto emits_side.
Qed.

Lemma upload_model_emits {E : Externals} P config id out :
  (forall repo a b r, P (EvCreateRepo repo a b r)) ->
  (forall folder repo r, P (EvUploadFolder folder repo r)) ->
  emits P (upload_model config id out).
Proof.
  intros H1 H2.
  unfold upload_model, open_write, generate_readme, call_create_repo,
    call_upload_folder.
  emits_auto emits_side.
Qed.

Lemma collect_request_emits P ui :
  (forall call args, call <> "checkbox" -> P (EvSt call args)) ->
  emits P (collect_request ui).
Proof. intros HP. unfold collect_request. emits_auto emits_side. Qed.

Lemma upload_stage_emits {E : Externals} P config id out url stderr :
  (forall repo a b r, P (EvCreateRepo repo a b r)) ->
  (forall folder repo r, P (EvUploadFolder folder repo r)) ->
  (forall call args, call <> "checkbox" -> P (EvSt call args)) ->
  emits P (upload_stage config id out url stderr).
Proof.
  intros H2 H3 H4. unfold upload_stage.
  do 3 (apply emits_bind; [emits_auto emits_side|intros _]).
  apply emits_bind; [by apply upload_model_emits|intros err].
  emits_auto emits_side.
Qed.

Lemma convert_and_upload_emits {E : Externals} P config id trust out url :
  (forall cmd cwd env r, P (EvSubprocessRun cmd cwd env r)) ->
  (forall repo a b r, P (EvCreateRepo repo a b r)) ->
  (forall folder repo r, P (EvUploadFolder folder repo r)) ->
  (forall call args, call <> "checkbox" -> P (EvSt call args)) ->
  emits P (convert_and_upload config id trust out url).
Proof.
  intros H1 H2 H3 H4. unfold convert_and_upload.
  apply emits_bind; [emits_auto emits_side|intros _].
  apply emits_bind; [by apply convert_model_emits|intros conv].
  cbv zeta. destruct (negb conv.1); [emits_auto emits_side|].
  by apply upload_stage_emits.
Qed.

(** ** The shape of a run of [main] *)

Section Shape.
Context (P : Event -> Prop) (M : list Event -> Prop).

Lemma shaped_of_emits {A} (m : Py A) : M [] -> emits P m -> shaped P M m.
Proof.
  intros HM Hm w. destruct (Hm w) as (evs & Ht & HP).
  exists evs, [], []. by rewrite app_nil_r.
Qed.

Lemma shaped_of_adds {A} (m : Py A) : adds M m -> shaped P M m.
Proof.
  intros Hm w. destruct (Hm w) as (mid & Ht & HM).
  exists [], mid, []. by rewrite app_nil_r.
Qed.

Lemma shaped_bind {A B} (m : Py A) (k : A -> Py B) :
  M [] -> emits P m -> (forall a, shaped P M (k a)) ->
  shaped P M (bind m k).
Proof.
  intros HM Hm Hk w. unfold bind.
  destruct (Hm w) as (evs & Ht & HP).
  destruct (m w) as [[a|e] w1]; cbn in *.
  - destruct (Hk a w1) as (pre & mid & post & Ht' & Hpre & Hmid & Hpost).
    exists (evs ++ pre)%list, mid, post.
    rewrite Ht', Ht, <- !app_assoc.
    split; [done|]. split; [by apply Forall_app|done].
  - exists evs, [], []. by rewrite app_nil_r.
Qed.

Lemma shaped_try_except {A} (m : Py A) h :
  shaped P M m -> (forall e, emits P (h e)) -> shaped P M (try_except m h).
Proof.
  intros Hm Hh w. unfold try_except.
  destruct (Hm w) as (pre & mid & post & Ht & Hpre & Hmid & Hpost).
  destruct (m w) as [[a|e] w1]; cbn in *.
  - by exists pre, mid, post.
  - destruct (Hh e w1) as (evs & Ht' & HP).
    exists pre, mid, (post ++ evs)%list.
    rewrite Ht', Ht, <- !app_assoc.
    split; [done|]. split; [done|]. split; [done|by apply Forall_app].
Qed.

(** [main] adds configuration, provisioning and widget events, then what
    lines 218-264 add, then at most the report of an exception. *)
Lemma main_shaped {E : Externals} (ui : UI) :
  M [] ->
  (forall tok r, P (EvWhoami tok r)) ->
  (forall url r, P (EvUrlOpen url r)) ->
  (forall url f r, P (EvUrlRetrieve url f r)) ->
  (forall level msg, P (EvLog level msg)) ->
  (forall call args, call <> "checkbox" -> P (EvSt call args)) ->
  (forall config id trust, adds M (resolve_and_publish config ui id trust)) ->
  forall w, exists pre mid post,
    new_events w (main ui w).2 = (pre ++ mid ++ post)%list
    /\ Forall P pre /\ M mid /\ Forall P post.
Proof.
  intros HM H1 H2 H3 H4 H5 Hmid.
  assert (Hmain : shaped P M (main ui)).
  { unfold main.
    apply shaped_bind; [done|emits_auto emits_side|intros _].
    apply shaped_try_except; [|intros e; emits_auto emits_side].
    apply shaped_bind; [done|by apply from_env_emits|intros config].
    cbv zeta.
    apply shaped_bind; [done|by apply setup_repository_emits|intros _].
    apply shaped_bind; [done|by apply collect_request_emits|intros request].
    destruct request as [[id trust]|].
    - apply shaped_of_adds, Hmid.
    - apply shaped_of_emits; [done|apply emits_ret]. }
  intros w. destruct (Hmain w) as (pre & mid & post & Ht & Hrest).
  exists pre, mid, post. split; [by apply new_events_app|done].
Qed.
End Shape.

(** Stepping through a block whose events are described as a whole. *)
Section Adds.
Context {A B : Type} (M : list Event -> Prop).

Lemma adds_ret (a : A) : M [] -> adds M (ret a).
Proof. intros HM w. exists []. cbn. by rewrite app_nil_r. Qed.



Lemma adds_of_emits P (m : Py A) :
  emits P m -> (forall l, Forall P l -> M l) -> adds M m.
Proof.
  intros Hm HPM w. destruct (Hm w) as (l & Ht & HP).
  exists l. split; [done|by apply HPM].
Qed.
End Adds.


(** The naming step always returns; it adds the check box event exactly when
    the configured user owns the source repository. *)
Lemma resolve_and_publish_cases {E : Externals} config ui id trust w :
  exists out,
    resolve_and_publish config ui id trust w
    = publish_unless_present config ui id trust false out w
    \/ resolve_and_publish config ui id trust w
       = publish_unless_present config ui id trust (ui_same_repo ui) out
           (add_event checkbox_event w).
Proof.
  unfold resolve_and_publish, resolve_output_model_id, bind, of_outcome.
  destruct (py_index_first_split id) as [owner ->].
  destruct (py_index_last_split id) as [name ->].
  destruct (String.eqb (hf_username config) owner); cbn; eauto.
Qed.

Lemma resolve_and_publish_adds {E : Externals} (M : list Event -> Prop)
    config ui id trust :
  (forall out, adds M (publish_unless_present config ui id trust false out)) ->
  (forall out,
     adds (fun l => M (checkbox_event :: l))
       (publish_unless_present config ui id trust (ui_same_repo ui) out)) ->
  adds M (resolve_and_publish config ui id trust).
Proof.
  intros Hno Hyes w.
  destruct (resolve_and_publish_cases config ui id trust w) as [out [-> | ->]].
  - apply Hno.
  - destruct (Hyes out (add_event checkbox_event w)) as (l & Ht & HM).
    exists (checkbox_event :: l). split; [|done].
    rewrite Ht. cbn. by rewrite <- app_assoc.
Qed.

Lemma adds_emit (M : list Event -> Prop) e : M [e] -> adds M (emit e).
Proof. intros HM w. by exists [e]. Qed.

(** What lines 239-264 add once the existence check is behind: widget
    events and the events of conversion and upload. *)
Lemma proceed_emits {E : Externals} P config ui id trust out url :
  (forall cmd cwd env r, P (EvSubprocessRun cmd cwd env r)) ->
  (forall repo a b r, P (EvCreateRepo repo a b r)) ->
  (forall folder repo r, P (EvUploadFolder folder repo r)) ->
  (forall call args, call <> "checkbox" -> P (EvSt call args)) ->
  emits P
    (st_call "write" ["URL where the model will be converted and uploaded to:"];;;
     st_call "code" [url; "plaintext"];;;
     st_call "button" ["Proceed"; "primary"];;;
     if negb (ui_proceed ui) then ret tt
     else convert_and_upload config id trust out url).
Proof.
  intros H1 H2 H3 H4.
  do 3 (apply emits_bind; [emits_auto emits_side|intros _]).
  destruct (negb (ui_proceed ui)); [apply emits_ret|].
  by apply convert_and_upload_emits.
Qed.

(** ** The existence check *)


Lemma publish_unless_present_emits {E : Externals} P config ui id trust
    same_repo out :
  (same_repo = false -> forall repo r, P (EvRepoExists repo r)) ->
  (forall cmd cwd env r, P (EvSubprocessRun cmd cwd env r)) ->
  (forall repo a b r, P (EvCreateRepo repo a b r)) ->
  (forall folder repo r, P (EvUploadFolder folder repo r)) ->
  (forall call args, call <> "checkbox" -> P (EvSt call args)) ->
  emits P (publish_unless_present config ui id trust same_repo out).
Proof.
  intros H0 H1 H2 H3 H4. unfold publish_unless_present. cbv zeta.
  apply emits_bind.
  { destruct same_repo; cbn [negb]; [apply emits_ret|].
    unfold call_repo_exists. specialize (H0 eq_refl).
    emits_auto emits_side. }
  intros [|]; [emits_auto emits_side|].
  by apply proceed_emits.
Qed.



(** ** A failed conversion *)

Lemma adds_after_emits {A B} (P : Event -> Prop) (M : list Event -> Prop)
    (m : Py A) (k : A -> Py B) :
  emits P m ->
  (forall pref, Forall P pref -> M pref) ->
  (forall a pref, Forall P pref -> adds (fun l => M (pref ++ l)%list) (k a)) ->
  forall pref, Forall P pref ->
    adds (fun l => M (pref ++ l)%list) (bind m k).
Proof.
  intros Hm HM Hk pref Hpref w. unfold bind.
  destruct (Hm w) as (evs & Ht & Hevs).
  destruct (m w) as [[a|e] w1]; cbn in *.
  - destruct (Hk a (pref ++ evs)%list (proj2 (Forall_app _ _ _) (conj Hpref Hevs)) w1)
      as (l & Ht' & Hl).
    exists (evs ++ l)%list. rewrite Ht', Ht, <- !app_assoc in *. done.
  - exists evs. split; [done|]. apply HM. by apply Forall_app.
Qed.

Lemma failure_stops_before pref : Forall before_conversion pref -> failure_stops pref.
Proof.
  intros Hpref cmd cwd env r Hin _. rewrite Forall_forall in Hpref.
  apply list_elem_of_In, Hpref in Hin. destruct Hin as [Hin _]. by destruct Hin.
Qed.

Lemma convert_and_upload_failure_stops {E : Externals} config id trust out url
    pref :
  Forall before_conversion pref ->
  adds (fun l => failure_stops (pref ++ l)%list)
    (convert_and_upload config id trust out url).
Proof.
  intros Hpref w.
  set (spinner := EvSt "spinner" ["Converting model..."]).
  assert (Hnot : forall cmd cwd env r,
             ~ In (EvSubprocessRun cmd cwd env r) (pref ++ [spinner])%list).
  { intros cmd cwd env r [Hin|[Hin|[]]]%in_app_iff; [|discriminate Hin].
    rewrite Forall_forall in Hpref.
    apply list_elem_of_In, Hpref in Hin. destruct Hin as [Hin _].
    by destruct Hin. }
  unfold convert_and_upload, bind, st_call, emit. cbv beta iota zeta.
  rewrite convert_model_run.
  destruct (trust && negb (is_using_user_token config)).
  { exists [spinner; EvSt "error" ["Conversion failed: " +:+ exn_str trust_rejected]].
    split; [cbn; by rewrite <- app_assoc|].
    intros cmd cwd env r Hin _. exfalso.
    change (pref ++ [spinner; ?e])%list with (pref ++ [spinner] ++ [e])%list in Hin.
    rewrite app_assoc in Hin. apply in_app_iff in Hin.
    destruct Hin as [Hin|[Hin|[]]]; [by apply Hnot in Hin|discriminate Hin]. }
  match goal with
  | |- context [ext_subprocess_run ?w0 ?c ?d ?v] =>
      set (cmd0 := c); set (cwd0 := d); set (env0 := v);
      destruct (ext_subprocess_run w0 cmd0 cwd0 env0) as [r f]
  end.
  cbn [fst snd].
  set (spawn := EvSubprocessRun cmd0 cwd0 env0 r).
  assert (Hsame : forall l cmd cwd env r',
             Forall (fun e => ~ is_subprocess_run e) l ->
             In (EvSubprocessRun cmd cwd env r')
               (pref ++ spinner :: spawn :: l)%list -> r' = r).
  { intros l cmd cwd env r' Hl Hin.
    change (pref ++ spinner :: spawn :: l)%list
      with (pref ++ [spinner] ++ spawn :: l)%list in Hin.
    rewrite app_assoc in Hin. apply in_app_iff in Hin.
    destruct Hin as [Hin|[Hin|Hin]]; [by apply Hnot in Hin| |].
    - by injection Hin.
    - rewrite Forall_forall in Hl. apply list_elem_of_In, Hl in Hin.
      by destruct Hin. }
  assert (Hfail : failure_stops
            (pref ++ [spinner; spawn;
                      EvSt "error" ["Conversion failed: " +:+ diagnostic_of r]])%list).
  { intros cmd cwd env r' Hin _.
    apply Hsame in Hin as ->; [|repeat constructor; cbn; tauto]. split.
    - apply Forall_app. split.
      + eapply Forall_impl; [exact Hpref|]. unfold before_conversion. tauto.
      + repeat constructor; cbn; tauto.
    - apply in_app_iff. right. cbn. tauto. }
  destruct r as [cp|e].
  - destruct (returncode cp =? 0) eqn:Hrc; cbn [negb fst snd].
    + destruct (upload_stage_emits (fun e => ~ is_subprocess_run e)
                  config id out url (stderr cp)) with
        (w := set_fs f (add_event spawn (add_event spinner w)))
        as (l & Ht & Hl); try (intros; cbn; tauto).
      exists (spinner :: spawn :: l). split.
      { etrans; [exact Ht|]. cbn. by rewrite <- !app_assoc. }
      intros cmd cwd env r' Hin Hr'.
      apply Hsame in Hin as ->; [|done].
      cbn in Hr'. apply Z.eqb_eq in Hrc. done.
    + exists [spinner; spawn; EvSt "error" ["Conversion failed: " +:+ stderr cp]].
      split; [cbn; by rewrite <- !app_assoc|apply Hfail].
  - cbn [negb fst snd].
    exists [spinner; spawn; EvSt "error" ["Conversion failed: " +:+ exn_str e]].
    split; [cbn; by rewrite <- !app_assoc|apply Hfail].
Qed.

Lemma publish_unless_present_failure_stops {E : Externals} config ui id trust
    same_repo out pref :
  Forall before_conversion pref ->
  adds (fun l => failure_stops (pref ++ l)%list)
    (publish_unless_present config ui id trust same_repo out).
Proof.
  unfold publish_unless_present. cbv zeta. revert pref.
  apply adds_after_emits.
  { destruct same_repo; cbn [negb]; [apply emits_ret|].
    unfold call_repo_exists. emits_auto ltac:(cbv; tauto). }
  { apply failure_stops_before. }
  intros [|] pref Hpref.
  { eapply adds_of_emits with (P := before_conversion).
    - emits_auto ltac:(cbv; tauto).
    - intros l Hl. apply failure_stops_before. by apply Forall_app. }
  revert pref Hpref.
  do 3 (apply adds_after_emits;
        [emits_auto ltac:(cbv; tauto)|apply failure_stops_before|intros _]).
  intros pref Hpref. destruct (negb (ui_proceed ui)).
  - apply adds_ret. rewrite app_nil_r. by apply failure_stops_before.
  - by apply convert_and_upload_failure_stops.
Qed.

(** C4.  [convert_model] always returns a pair and never raises: either it
    refuses the request and starts nothing, or it runs one child process and
    returns its standard error, with success exactly for exit code 0, or the
    message of the exception the call raised, with failure.  In every run of
    [main] a failed conversion is reported and followed by no [create_repo]
    and no [upload_folder]; a child that exits with code 1 and standard
    error [OOM] gives [(False, "OOM")]. *)
Theorem conversion_outcome {E : Externals} :
  (forall (config : Config) (input_model_id : string)
          (trust_remote_code : bool) (w : World),
     exists success diagnostic w',
       convert_model config input_model_id trust_remote_code w
       = (Return (success, diagnostic), w')
       /\ ((trust_remote_code = true /\ is_using_user_token config = false
            /\ new_events w w' = [] /\ success = false
            /\ diagnostic = exn_str trust_rejected)
           \/ exists cmd cwd env r,
                new_events w w' = [EvSubprocessRun cmd cwd env r]
                /\ r = (ext_subprocess_run w cmd cwd env).1
                /\ match r with
                   | Return cp =>
                       success = (returncode cp =? 0)
                       /\ diagnostic = stderr cp
                   | Raise e => success = false /\ diagnostic = exn_str e
                   end))
  /\ (forall (ui : UI) (w : World),
        failure_stops (new_events w (main ui w).2))
  /\ (forall config input_model_id trust_remote_code w cmd cwd env out,
        In (EvSubprocessRun cmd cwd env (Return (mkCompleted 1 out "OOM")))
           (new_events w
              (convert_model config input_model_id trust_remote_code w).2) ->
        (convert_model config input_model_id trust_remote_code w).1
        = Return (false, "OOM")).
Proof.
  split; [|split].
  - intros config id trust w. rewrite convert_model_run.
    destruct (trust && negb (is_using_user_token config)) eqn:Hguard.
    + apply andb_true_iff in Hguard as [-> Huser%negb_true_iff].
      do 3 eexists. split; [reflexivity|]. left.
      by rewrite new_events_refl.
    + match goal with
      | |- context [ext_subprocess_run ?w0 ?c ?d ?v] =>
          destruct (ext_subprocess_run w0 c d v) as [[cp|e] f] eqn:Hr
      end; cbn [fst snd].
      all: do 3 eexists; (split; [reflexivity|]); right; do 4 eexists.
      all: split; [apply new_events_set_fs_add_event|].
      all: rewrite Hr; done.
  - intros ui w.
    destruct (main_shaped before_conversion failure_stops ui) with (w := w)
      as (pre & mid & post & -> & Hpre & Hmid & Hpost);
      try (intros; cbv; tauto).
    { intros config id trust.
      apply resolve_and_publish_adds; intros out.
      - apply (publish_unless_present_failure_stops _ _ _ _ _ _ []).
        constructor.
      - apply (publish_unless_present_failure_stops _ _ _ _ _ _
                 [checkbox_event]).
        repeat constructor; cbv; tauto. }
    intros cmd cwd env r Hin Hfail.
    assert (Hmid_in : In (EvSubprocessRun cmd cwd env r) mid).
    { rewrite !in_app_iff in Hin. rewrite Forall_forall in Hpre, Hpost.
      destruct Hin as [Hin|[Hin|Hin]]; [|done|];
        [apply list_elem_of_In, Hpre in Hin
        |apply list_elem_of_In, Hpost in Hin]; cbv in Hin; tauto. }
    destruct (Hmid _ _ _ _ Hmid_in Hfail) as [Hall Herr]. split.
    + rewrite !Forall_app. repeat split; [|done|];
        (eapply Forall_impl; [eassumption|]); unfold before_conversion; tauto.
    + rewrite !in_app_iff. tauto.
  - intros config id trust w cmd cwd env out. rewrite convert_model_run.
    destruct (trust && negb (is_using_user_token config)); cbn [fst snd].
    + rewrite new_events_refl. intros [].
    + rewrite new_events_set_fs_add_event.
      match goal with
      | |- context [ext_subprocess_run ?w0 ?c ?d ?v] =>
          destruct (ext_subprocess_run w0 c d v) as [[cp|e] f]
      end; cbn [fst snd]; intros [Hin|[]]; [|discriminate Hin].
      by injection Hin as _ _ _ ->.
Qed.


Lemma conversion_outcome_witness :
  let evs :=
    new_events ready_world (main (E := out_of_memory) ui_pythia ready_world).2 in
  Forall (fun e => ~ is_create_repo e /\ ~ is_upload_folder e) evs
  /\ In (EvSt "error" ["Conversion failed: OOM"]) evs.
Proof.
  apply (proj1 (proj2 (conversion_outcome (E := out_of_memory)))
           ui_pythia ready_world
           ["/usr/bin/python3"; "-m"; "scripts.convert"; "--quantize";
            "--model_id"; "EleutherAI/pythia-14m"]
           ["transformers.js"] {[ "HF_TOKEN" := "hf_secret" ]}
           (Return (mkCompleted 1 EmptyString "OOM"))).
  - vm_compute. auto 20.
  - cbn. lia.
Defined.

(** Scenario A, run on the sample world: provisioning, conversion and upload
    all happen, and only the toolchain checkout stays on disk. *)
Example pythia_end_to_end :
  let w' := (main (E := all_fine) ui_pythia fresh_world).2 in
  In (EvUploadFolder "transformers.js/models/EleutherAI/pythia-14m"
        "alice/pythia-14m-ONNX" (Return tt)) (trace w')
  /\ dom (fs w')
     = ({[ ["transformers.js"]; ["transformers.js"; "scripts"] ]} : gset path).
Proof. split; [vm_compute; auto 20|vm_compute; reflexivity]. Qed.

(** Scenario C, run on the sample world. *)
Example out_of_memory_run :
  convert_model (E := out_of_memory) (config_alice false)
    "EleutherAI/pythia-14m" false ready_world
  = (Return (false, "OOM"),
     add_event
       (EvSubprocessRun
          ["/usr/bin/python3"; "-m"; "scripts.convert"; "--quantize";
           "--model_id"; "EleutherAI/pythia-14m"]
          ["transformers.js"] {[ "HF_TOKEN" := "hf_secret" ]}
          (Return (mkCompleted 1 EmptyString "OOM")))
       ready_world).
Proof. vm_compute. reflexivity. Qed.

(** ** Configuration *)

Lemma from_env_run {E : Externals} (w : World) :
  let system_token := secrets w !! "HF_TOKEN" in
  let user_token := session_state w !! "user_hf_token" in
  from_env w
  = match lookup_username user_token system_token w with
    | (Return name, w1) =>
        if truthy (py_or user_token system_token) then
          (Return (Config_init (default EmptyString (py_or user_token system_token))
                     name (truthy user_token)), w1)
        else (Raise missing_token_error, w1)
    | (Raise e, w1) => (Raise e, w1)
    end.
Proof.
  cbv zeta. unfold from_env, bind, get_world. cbv beta iota zeta.
  destruct (lookup_username _ _ w) as [[name|e] w1]; [|done].
  by destruct (truthy (py_or _ _)).
Qed.





(** ** The filesystem *)

Lemma rmtree_lookup_under p f q : p `prefix_of` q -> rmtree p f !! q = None.
Proof.
  intros Hpq. unfold rmtree. apply map_lookup_filter_None. right.
  intros n _ Hnot. by apply Hnot.
Qed.

Lemma rmtree_lookup_other p f q :
  ~ p `prefix_of` q -> rmtree p f !! q = f !! q.
Proof.
  intros Hpq. unfold rmtree.
  destruct (f !! q) as [n|] eqn:Hq.
  - by apply map_lookup_filter_Some.
  - apply map_lookup_filter_None. by left.
Qed.

Lemma path_exists_false f p : path_exists f p = false <-> f !! p = None.
Proof.
  unfold path_exists. rewrite bool_decide_eq_false.
  by rewrite <- eq_None_not_Some.
Qed.

Lemma path_exists_true f p : path_exists f p = true <-> is_Some (f !! p).
Proof. unfold path_exists. by rewrite bool_decide_eq_true. Qed.

Lemma path_exists_rmtree p f : path_exists (rmtree p f) p = false.
Proof. apply path_exists_false, rmtree_lookup_under. done. Qed.

(** ** Running statements *)

Lemma bind_run {A B} (m : Py A) (k : A -> Py B) w :
  bind m k w
  = match m w with
    | (Return a, w') => k a w'
    | (Raise e, w') => (Raise e, w')
    end.
Proof. reflexivity. Qed.

Lemma try_finally_modify_fs {A} (m : Py A) g w :
  try_finally m (modify_fs g) w
  = ((m w).1, set_fs (g (fs (m w).2)) (m w).2).
Proof. unfold try_finally, modify_fs. by destruct (m w). Qed.

Lemma call_create_repo_run {E : Externals} repo a b w :
  call_create_repo repo a b w
  = (ext_create_repo w repo a b,
     add_event (EvCreateRepo repo a b (ext_create_repo w repo a b)) w).
Proof. reflexivity. Qed.

Lemma call_upload_folder_run {E : Externals} folder repo w :
  call_upload_folder folder repo w
  = (ext_upload_folder w folder repo,
     add_event (EvUploadFolder folder repo (ext_upload_folder w folder repo)) w).
Proof. reflexivity. Qed.

(** Writing the README touches the filesystem only, and fails when the
    folder it belongs to is not there. *)
Lemma open_write_readme_run parent name input w :
  exists o w1,
    open_write parent name (generate_readme input) w = (o, w1)
    /\ trace w1 = trace w
    /\ (fs w !! parent <> Some Dir -> exists e, o = Raise e)
    /\ (fs w !! parent = Some Dir -> o = Return tt).
Proof.
  unfold open_write, generate_readme, bind, get_world, of_outcome, ret, raise,
    modify_fs.
  cbv beta iota zeta.
  destruct (py_index_last_split input) as [seg ->].
  destruct (fs w !! parent) as [[|c]|]; cbn; do 2 eexists;
    (split; [reflexivity|]); (split; [reflexivity|]); split; try done; eauto.
Qed.

(** ** Publishing *)

Ltac in_events :=
  solve [cbn [In app] in *; intuition (try discriminate; try congruence)].



(** ** Provisioning *)

Lemma children_exist p f q : q ∈ children p f -> is_Some (f !! q).
Proof.
  unfold children. intros [_ Hq]%list_elem_of_filter.
  apply list_elem_of_fmap in Hq as ([q' n] & -> & Hq).
  apply elem_of_map_to_list in Hq. by exists n.
Qed.

Lemma rename_lookup_dst src dst f :
  is_Some (f !! src) -> is_Some (rename src dst f !! dst).
Proof.
  intros [n Hn]. unfold rename. apply lookup_union_is_Some. left.
  apply not_eq_None_Some. intros Hnone.
  apply not_elem_of_list_to_map_2 in Hnone. apply Hnone.
  rewrite <- list_fmap_compose.
  apply list_elem_of_fmap. exists (src, n). split.
  - cbn. by rewrite drop_all, app_nil_r.
  - apply elem_of_map_to_list, map_lookup_filter_Some. done.
Qed.

Lemma str_split_segments sep s seg :
  seg ∈ str_split sep s -> has_char sep seg = false.
Proof.
  revert seg. induction s as [|c rest IH]; intros seg; cbn.
  - by intros ->%list_elem_of_singleton.
  - destruct (Ascii.eqb c sep) eqn:Hc.
    + intros [->|Hin]%elem_of_cons; [done|by apply IH].
    + destruct (str_split sep rest) as [|seg0 segs] eqn:Hsplit.
      * intros ->%list_elem_of_singleton. cbn. by rewrite Hc.
      * intros [->|Hin]%elem_of_cons.
        -- cbn. rewrite Hc. apply IH. by left.
        -- apply IH. by right.
Qed.

Lemma Path_head_relative s p :
  starts_with_slash s = false -> Path s <> "/" :: p.
Proof.
  intros Hs. unfold Path, path_join. rewrite Hs. cbn [app].
  intros Heq.
  assert (Hin : "/" ∈ path_parts s) by (rewrite Heq; by left).
  unfold path_parts in Hin. apply list_elem_of_filter in Hin as [_ Hin].
  by apply str_split_segments in Hin.
Qed.

Lemma relative_not_under_root p t :
  is_absolute p = false -> ~ ("/" :: t) `prefix_of` p.
Proof.
  intros Hrel [rest ->]. cbn in Hrel. discriminate Hrel.
Qed.

Lemma try_finally_modify_fs_run {A} (m : Py A) g w r w1 :
  m w = (r, w1) ->
  try_finally m (modify_fs g) w = (r, set_fs (g (fs w1)) w1).
Proof. intros Hm. unfold try_finally, modify_fs. by rewrite Hm. Qed.

(** Unpacking adds no event; when it returns, the checkout is in place; a
    tar error on the downloaded file is passed on. *)
Lemma extract_into_run {E : Externals} config archive tmp w :
  exists o w1,
    extract_into config archive tmp w = (o, w1)
    /\ trace w1 = trace w
    /\ (o = Return tt -> is_Some (fs w1 !! repo_path config))
    /\ (forall c e,
          fs w !! archive = Some (File c) ->
          ext_tar_members c = Raise e -> o = Raise e).
Proof.
  unfold extract_into. rewrite bind_run. unfold read_file at 1.
  rewrite bind_run. unfold get_world at 1. cbv beta iota.
  destruct (fs w !! archive) as [[|c]|] eqn:Hread.
  1,3: cbn; do 2 eexists; (split; [reflexivity|]); (split; [reflexivity|]);
       (split; [done|]); intros c' e' Hc' _; discriminate Hc'.
  unfold ret at 1. cbv beta iota. rewrite bind_run. unfold of_outcome at 1.
  destruct (ext_tar_members c) as [members|e] eqn:Htar.
  2:{ cbn. do 2 eexists. split; [reflexivity|]. split; [reflexivity|].
      split; [done|]. intros c' e' [= <-] Htar'. congruence. }
  rewrite bind_run. unfold modify_fs at 1. cbv beta iota.
  set (w1 := set_fs (extractall tmp members (fs w)) w).
  rewrite bind_run. unfold next_iterdir at 1. rewrite bind_run.
  unfold get_world at 1. cbv beta iota zeta.
  destruct (children tmp (fs w1) !! _) as [extracted|] eqn:Hfirst.
  2:{ cbn. do 2 eexists. split; [reflexivity|]. split; [reflexivity|].
      split; [done|]. intros c' e' [= <-] Htar'. congruence. }
  cbn. do 2 eexists. split; [reflexivity|]. split; [reflexivity|]. split.
  - intros _. apply rename_lookup_dst, (children_exist tmp).
    by eapply list_elem_of_lookup_2.
  - intros c' e' [= <-] Htar'. congruence.
Qed.

Lemma _extract_archive_run {E : Externals} config archive w :
  exists o w2,
    _extract_archive config archive w = (o, w2)
    /\ trace w2 = trace w
    /\ (o = Return tt -> is_absolute (repo_path config) = false ->
        is_Some (fs w2 !! repo_path config))
    /\ (forall c e,
          fs w !! archive = Some (File c) ->
          (forall t, archive <> "/" :: t) ->
          ext_tar_members c = Raise e -> o = Raise e).
Proof.
  unfold _extract_archive. rewrite bind_run. unfold get_world at 1.
  cbv beta iota zeta. rewrite bind_run. unfold modify_fs at 1.
  cbv beta iota.
  set (tmp := "/" :: ext_mkdtemp w).
  set (w0 := set_fs (<[tmp:=Dir]> (fs w)) w).
  destruct (extract_into_run config archive tmp w0)
    as (o & w1 & Hrun & Ht & Hok & Htar).
  rewrite (try_finally_modify_fs_run _ _ _ _ _ Hrun).
  exists o. eexists. split; [reflexivity|]. split; [exact Ht|]. split.
  - intros Ho Hrel. cbn [fs set_fs].
    rewrite rmtree_lookup_other by (by apply relative_not_under_root).
    by apply Hok.
  - intros c e Hc Hne. apply Htar. cbn. rewrite lookup_insert_ne; [done|].
    intros Heq. by apply (Hne (ext_mkdtemp w)).
Qed.

(** Probing the tag never fails, asks the network once and leaves the
    filesystem alone. *)
Lemma _get_ref_type_run {E : Externals} config w :
  exists ref_type w0 evs,
    _get_ref_type config w = (Return ref_type, w0)
    /\ trace w0 = (trace w ++ evs)%list
    /\ Forall (fun e => forall u f r, e <> EvUrlRetrieve u f r) evs
    /\ fs w0 = fs w.
Proof.
  unfold _get_ref_type, try_except. cbv zeta. rewrite bind_run.
  unfold call_urlopen_getcode at 1. rewrite bind_run.
  unfold get_world at 1. cbv beta iota zeta. rewrite bind_run.
  unfold emit at 1. cbv beta iota. unfold of_outcome at 1.
  destruct (ext_urlopen_getcode w _) as [code|e]; cbn.
  - do 3 eexists. split; [reflexivity|]. split; [reflexivity|].
    split; [|done]. by repeat constructor.
  - do 3 eexists. split; [reflexivity|].
    split; [cbn [trace add_event]; rewrite <- app_assoc; reflexivity|].
    split; [|done]. by repeat constructor.
Qed.

Lemma call_urlretrieve_run {E : Externals} url filename w :
  call_urlretrieve url filename w
  = let r := ext_urlretrieve w url in
    let w1 := add_event (EvUrlRetrieve url filename r) w in
    match r with
    | RetrieveFailed e => (Raise e, w1)
    | RetrievePartial e written =>
        (Raise e, set_fs (<[filename := File written]> (fs w)) w1)
    | RetrieveOk content =>
        (Return tt, set_fs (<[filename := File content]> (fs w)) w1)
    end.
Proof.
  unfold call_urlretrieve, bind, get_world, emit, modify_fs, raise.
  cbv beta iota zeta. by destruct (ext_urlretrieve w url).
Qed.

(** A provisioning run from a state without the checkout: one download is
    attempted, the archive file is gone afterwards, and the outcome follows
    the download and the unpacking. *)
Lemma setup_repository_fresh_run {E : Externals} config w :
  path_exists (fs w) (repo_path config) = false ->
  exists r w' evs0 url r0 rest,
    setup_repository config w = (r, w')
    /\ new_events w w'
       = (evs0 ++ EvUrlRetrieve url (archive_path_of config) r0 :: rest)%list
    /\ Forall not_retrieve evs0 /\ Forall not_retrieve rest
    /\ fs w' !! archive_path_of config = None
    /\ match r0 with
       | RetrieveFailed e | RetrievePartial e _ =>
           r = Raise (provisioning_error e)
       | RetrieveOk c =>
           (r = Return tt
            \/ exists cause, r = Raise (provisioning_error cause))
           /\ (forall e, ext_tar_members c = Raise e ->
                         r = Raise (provisioning_error e))
           /\ (r = Return tt ->
               is_absolute (repo_path config) = false ->
               repo_path config <> archive_path_of config ->
               is_Some (fs w' !! repo_path config))
       end.
Proof.
  intros Hfresh. unfold setup_repository. rewrite bind_run.
  unfold get_world at 1. cbv beta iota. rewrite Hfresh. rewrite bind_run.
  destruct (_get_ref_type_run config w)
    as (ref_type & w0 & evs0 & -> & Ht0 & Hev0 & Hfs0).
  cbv beta iota zeta.
  set (archive := archive_path_of config).
  match goal with
  | |- context [call_urlretrieve ?u archive] => set (url := u)
  end.
  assert (Hrel : forall t, archive <> "/" :: t).
  { intros t. by apply Path_head_relative. }
  match goal with
  | |- context [try_except ?m ?h] => set (body := try_except m h)
  end.
  assert (Hbody : exists r w1 r0 rest,
    body w0 = (r, w1)
    /\ trace w1 = (trace w0 ++ EvUrlRetrieve url archive r0 :: rest)%list
    /\ Forall not_retrieve rest
    /\ match r0 with
       | RetrieveFailed e | RetrievePartial e _ =>
           r = Raise (provisioning_error e)
       | RetrieveOk c =>
           (r = Return tt
            \/ exists cause, r = Raise (provisioning_error cause))
           /\ (forall e, ext_tar_members c = Raise e ->
                         r = Raise (provisioning_error e))
           /\ (r = Return tt ->
               is_absolute (repo_path config) = false ->
               is_Some (fs w1 !! repo_path config))
       end).
  { subst body. unfold try_except. rewrite bind_run, call_urlretrieve_run.
    cbv zeta. destruct (ext_urlretrieve w0 url) as [e|e written|content].
    1,2: cbn; do 2 eexists; eexists _, []; (split; [reflexivity|]);
         (split; [reflexivity|]); split; done.
    cbv beta iota. rewrite bind_run.
    set (w1 := set_fs _ _).
    destruct (_extract_archive_run config archive w1)
      as (o & w2 & -> & Ht2 & Hok & Htar).
    assert (Hfile : fs w1 !! archive = Some (File content))
      by apply lookup_insert_eq.
    destruct o as [[]|e]; cbn.
    - do 2 eexists. eexists _, [_]. split; [reflexivity|].
      split; [cbn; rewrite Ht2; cbn; rewrite <- app_assoc; reflexivity|].
      split; [repeat constructor; intros ???; discriminate|].
      split; [by left|]. split; [|by apply Hok].
      intros e He. by specialize (Htar _ _ Hfile Hrel He).
    - do 2 eexists. eexists _, []. split; [reflexivity|].
      split; [rewrite Ht2; reflexivity|]. split; [done|].
      split; [right; by eexists|]. split; [|done].
      intros e' He'. specialize (Htar _ _ Hfile Hrel He'). congruence. }
  destruct Hbody as (r & w1 & r0 & rest & Hrun & Ht1 & Hrest & Hr0).
  rewrite (try_finally_modify_fs_run _ _ _ _ _ Hrun).
  exists r. eexists. exists evs0, url, r0, rest. split; [reflexivity|].
  split.
  { apply new_events_app. cbn. rewrite Ht1, Ht0. by rewrite <- app_assoc. }
  split; [done|]. split; [done|].
  split; [apply lookup_delete_eq|].
  destruct r0 as [e|e written|content]; [done|done|].
  destruct Hr0 as (Hcases & Htar & Hok). split; [done|]. split; [done|].
  intros Hr Hrepo Hne. cbn. unfold unlink.
  rewrite lookup_delete_ne; [by apply Hok|done].
Qed.


(** C7.  When the toolchain path exists, [setup_repository] returns at once
    and leaves the whole world as it was: no download, no event, no change
    of the filesystem.  After a first call that succeeded the path exists,
    so a second call does nothing; this holds for every configuration whose
    toolchain path is relative and is not the archive file itself, as in
    every configuration that [from_env] builds. *)
Theorem setup_repository_idempotent {E : Externals} :
  (forall (config : Config) (w : World),
     path_exists (fs w) (repo_path config) = true ->
     setup_repository config w = (Return tt, w))
  /\ (forall (config : Config) (w w1 : World),
        is_absolute (repo_path config) = false ->
        repo_path config <> archive_path_of config ->
        setup_repository config w = (Return tt, w1) ->
        setup_repository config w1 = (Return tt, w1)
        /\ new_events w1 (setup_repository config w1).2 = [])
  /\ (forall (token username : string) (user_supplied : bool),
        let config := Config_init token username user_supplied in
        is_absolute (repo_path config) = false
        /\ repo_path config <> archive_path_of config).
Proof.
  assert (Hnoop : forall config w,
            path_exists (fs w) (repo_path config) = true ->
            setup_repository config w = (Return tt, w)).
  { intros config w Hex. unfold setup_repository. rewrite bind_run.
    unfold get_world at 1. cbv beta iota. by rewrite Hex. }
  split; [exact Hnoop|]. split.
  - intros config w w1 Hrel Hne Hfirst.
    assert (Hthere : path_exists (fs w1) (repo_path config) = true).
    { destruct (path_exists (fs w) (repo_path config)) eqn:Hex.
      - rewrite (Hnoop _ _ Hex) in Hfirst. by injection Hfirst as <-.
      - destruct (setup_repository_fresh_run config w Hex)
          as (r & w' & evs0 & url & r0 & rest & Hrun & _ & _ & _ & _ & Hr0).
        rewrite Hrun in Hfirst. injection Hfirst as -> ->.
        destruct r0 as [e|e written|content]; [discriminate Hr0..|].
        destruct Hr0 as (_ & _ & Hok).
        by apply path_exists_true, Hok. }
    rewrite (Hnoop _ _ Hthere). split; [done|]. apply new_events_refl.
  - intros token username user_supplied config. split; [done|].
    vm_compute. discriminate.
Qed.

Lemma setup_repository_idempotent_witness :
  setup_repository (E := all_broken) (config_alice false) ready_world
  = (Return tt, ready_world)
  /\ exists w1,
       setup_repository (E := all_fine) (config_alice false) fresh_world
       = (Return tt, w1)
       /\ setup_repository (E := all_fine) (config_alice false) w1
          = (Return tt, w1).
Proof.
  split.
  - apply (proj1 (setup_repository_idempotent (E := all_broken))).
    vm_compute. reflexivity.
  - eexists. split; [vm_compute; reflexivity|].
    apply (proj1 (proj2 (setup_repository_idempotent (E := all_fine)))
             (config_alice false) fresh_world); [reflexivity| |].
    + vm_compute. discriminate.
    + vm_compute. reflexivity.
Defined.




(** * Further properties of the code *)

(** ** Provisioning: where the archive comes from *)

Lemma _get_ref_type_exact {E : Externals} config w :
  let probe := ext_urlopen_getcode w (tag_url config) in
  _get_ref_type config w
  = (Return (ref_type_of probe),
     match probe with
     | Return _ => add_event (EvUrlOpen (tag_url config) probe) w
     | Raise e =>
         add_event
           (EvLog "warning"
              ("Failed to check tags, defaulting to heads: " +:+ exn_str e))
           (add_event (EvUrlOpen (tag_url config) probe) w)
     end).
Proof.
  cbv zeta. unfold _get_ref_type, try_except, tag_url. cbv zeta.
  rewrite bind_run. unfold call_urlopen_getcode at 1. rewrite bind_run.
  unfold get_world at 1. cbv beta iota zeta. rewrite bind_run.
  unfold emit at 1. cbv beta iota. unfold of_outcome at 1.
  by destruct (ext_urlopen_getcode w _) as [code|e].
Qed.

(** X1.  Without a checkout, [setup_repository] probes the tag address once
    and then asks for exactly one archive: the tag archive when the probe
    answered 200, the branch archive otherwise, also when the probe raised,
    which is only logged as a warning.  The archive goes to the file
    [transformers_<version>.tar.gz]; nothing else is asked of the network. *)
Theorem provisioning_download_source {E : Externals} :
  forall (config : Config) (w : World),
    path_exists (fs w) (repo_path config) = false ->
    let probe := ext_urlopen_getcode w (tag_url config) in
    let archive_url :=
      transformers_base_url config +:+ "/" +:+ ref_type_of probe +:+ "/"
      +:+ transformers_version config +:+ ".tar.gz" in
    exists r0 rest,
      new_events w (setup_repository config w).2
      = (EvUrlOpen (tag_url config) probe
         :: match probe with
            | Return _ => []
            | Raise e =>
                [EvLog "warning"
                   ("Failed to check tags, defaulting to heads: "
                    +:+ exn_str e)]
            end
         ++ EvUrlRetrieve archive_url (archive_path_of config) r0 :: rest)%list
      /\ (rest = []
          \/ rest
             = [EvLog "info" "Repository downloaded and extracted successfully"]).
Proof.
  intros config w Hfresh probe archive_url.
  unfold setup_repository. rewrite bind_run.
  unfold get_world at 1. cbv beta iota. rewrite Hfresh. rewrite bind_run.
  rewrite _get_ref_type_exact. fold probe. cbv beta iota zeta.
  fold archive_url.
  set (w0 := match probe with
             | Return _ => add_event (EvUrlOpen (tag_url config) probe) w
             | Raise e => _
             end).
  rewrite try_finally_modify_fs. cbn [snd].
  match goal with
  | |- context [try_except ?m ?h] => set (body := try_except m h)
  end.
  assert (Hbody : exists r0 rest,
    trace (body w0).2
    = (trace w0
       ++ EvUrlRetrieve archive_url (archive_path_of config) r0 :: rest)%list
    /\ (rest = []
        \/ rest
           = [EvLog "info" "Repository downloaded and extracted successfully"])).
  { subst body. unfold try_except. rewrite bind_run, call_urlretrieve_run.
    cbv zeta. destruct (ext_urlretrieve w0 archive_url) as [e|e written|content].
    1,2: cbn; eexists _, []; split; [reflexivity|by left].
    cbv beta iota. rewrite bind_run.
    set (w1 := set_fs _ _).
    destruct (_extract_archive_run config (archive_path_of config) w1)
      as (o & w2 & -> & Ht2 & _ & _).
    destruct o as [[]|e]; cbn.
    - eexists _, [_]. split; [|by right].
      rewrite Ht2. cbn. rewrite <- app_assoc. reflexivity.
    - eexists _, []. split; [|by left]. rewrite Ht2. reflexivity. }
  destruct Hbody as (r0 & rest & Ht & Hrest).
  exists r0, rest. split; [|exact Hrest].
  apply new_events_app. cbn [trace set_fs]. rewrite Ht.
  subst w0. destruct probe as [code|e]; cbn; by rewrite <- !app_assoc.
Qed.

Lemma provisioning_download_source_witness :
  exists r0 rest,
    new_events fresh_world
      (setup_repository (E := all_broken) (config_alice false) fresh_world).2
    = [EvUrlOpen
         "https://github.com/huggingface/transformers.js/archive/refs/tags/3.6.1.tar.gz"
         (Raise (http_error "HTTP Error 404: Not Found"));
       EvLog "warning"
         "Failed to check tags, defaulting to heads: HTTP Error 404: Not Found";
       EvUrlRetrieve
         "https://github.com/huggingface/transformers.js/archive/refs/heads/3.6.1.tar.gz"
         ["transformers_3.6.1.tar.gz"] r0]
      ++ rest.
Proof.
  destruct (provisioning_download_source (E := all_broken)
              (config_alice false) fresh_world eq_refl)
    as (r0 & rest & Hev & _).
  exists r0, rest. exact Hev.
Defined.

(** ** Unpacking: the scratch directory *)





Lemma _extract_archive_unfold {E : Externals} config archive w :
  let w0 := set_fs (<[scratch_dir w := Dir]> (fs w)) w in
  _extract_archive config archive w
  = ((extract_into config archive (scratch_dir w) w0).1,
     set_fs (rmtree (scratch_dir w)
               (fs (extract_into config archive (scratch_dir w) w0).2))
       (extract_into config archive (scratch_dir w) w0).2).
Proof.
  cbv zeta. unfold _extract_archive. rewrite bind_run. unfold get_world at 1.
  cbv beta iota zeta. rewrite bind_run. unfold modify_fs at 1.
  cbv beta iota. by rewrite try_finally_modify_fs.
Qed.

(** X2.  [_extract_archive] removes its scratch directory on every exit,
    whether it returns or raises: afterwards nothing is left at or below it,
    and no external call was made. *)
Theorem extract_archive_scratch_removed {E : Externals} :
  forall (config : Config) (archive_path : path) (w : World),
    let w' := (_extract_archive config archive_path w).2 in
    (forall q, scratch_dir w `prefix_of` q -> fs w' !! q = None)
    /\ path_exists (fs w') (scratch_dir w) = false
    /\ new_events w w' = [].
Proof.
  intros config archive w w'. subst w'.
  rewrite _extract_archive_unfold. cbn [snd fs set_fs].
  split; [intros q Hq; by apply rmtree_lookup_under|].
  split; [apply path_exists_rmtree|].
  destruct (_extract_archive_run config archive w) as (o & w2 & Hrun & Ht & _).
  rewrite _extract_archive_unfold in Hrun. injection Hrun as _ Hw2.
  apply new_events_app. rewrite app_nil_r. rewrite <- Ht, <- Hw2. done.
Qed.



Lemma children_fresh (tmp : path) (f : gmap path Node) :
  (forall q : path, tmp `prefix_of` q -> q <> tmp -> f !! q = None) ->
  children tmp f = [].
Proof.
  intros Hfresh. destruct (children tmp f) as [|q rest] eqn:Hc; [done|].
  assert (Hq : q ∈ children tmp f) by (rewrite Hc; by left).
  pose proof (children_exist _ _ _ Hq) as [n Hn].
  unfold children in Hq. apply list_elem_of_filter in Hq as [[Hpre Hlen] _].
  rewrite Hfresh in Hn; [done|done|].
  intros ->. lia.
Qed.

(** X4.  An archive that parses but holds no member makes
    [_extract_archive] raise [StopIteration], whose message is empty: the
    freshly made scratch directory has no entry for [next] to return. *)
Theorem extract_archive_empty {E : Externals} :
  forall (config : Config) (archive_path : path) (w : World)
         (content : string),
    fs w !! archive_path = Some (File content) ->
    (forall t, archive_path <> "/" :: t) ->
    ext_tar_members content = Return [] ->
    (forall q, scratch_dir w `prefix_of` q -> fs w !! q = None) ->
    (_extract_archive config archive_path w).1
    = Raise (mkExn "StopIteration" EmptyString).
Proof.
  intros config archive w content Hfile Hrel Hmembers Hfresh.
  rewrite _extract_archive_unfold. cbn [fst].
  unfold extract_into. rewrite bind_run. unfold read_file at 1.
  rewrite bind_run. unfold get_world at 1. cbv beta iota.
  assert (Hread : fs (set_fs (<[scratch_dir w:=Dir]> (fs w)) w) !! archive
                  = Some (File content)).
  { cbn. rewrite lookup_insert_ne; [done|]. intros Heq.
    by apply (Hrel (ext_mkdtemp w)). }
  rewrite Hread. unfold ret at 1. cbv beta iota. rewrite bind_run.
  unfold of_outcome at 1. rewrite Hmembers.
  rewrite bind_run. unfold modify_fs at 1. cbv beta iota.
  rewrite bind_run. unfold next_iterdir at 1. rewrite bind_run.
  unfold get_world at 1. cbv beta iota zeta.
  rewrite children_fresh; [done|].
  intros q Hpre Hne. cbn. rewrite lookup_insert_ne; [by apply Hfresh|done].
Qed.

Lemma extract_archive_empty_witness :
  (_extract_archive (E := empty_archive) (config_alice false)
     ["transformers_3.6.1.tar.gz"] archive_world).1
  = Raise (mkExn "StopIteration" EmptyString).
Proof.
  apply (extract_archive_empty (E := empty_archive) (config_alice false)
           ["transformers_3.6.1.tar.gz"] archive_world "archive-bytes").
  - vm_compute. reflexivity.
  - intros t. discriminate.
  - reflexivity.
  - intros q [k ->]. unfold archive_world. cbn [fs].
    rewrite lookup_insert_ne by discriminate.
    apply lookup_singleton_ne. discriminate.
Defined.

(** ** Configuration: registry calls and the token in use *)

Lemma lookup_username_run {E : Externals} user_token system_token w :
  lookup_username user_token system_token w
  = if truthy user_token then
      (ext_whoami w user_token,
       add_event (EvWhoami user_token (ext_whoami w user_token)) w)
    else if truthy (os_environ w !! "SPACE_AUTHOR_NAME") then
      (Return (default EmptyString (os_environ w !! "SPACE_AUTHOR_NAME")), w)
    else
      (ext_whoami w system_token,
       add_event (EvWhoami system_token (ext_whoami w system_token)) w).
Proof.
  unfold lookup_username. destruct (truthy user_token); [done|].
  rewrite bind_run. unfold get_world at 1. cbv beta iota zeta.
  by destruct (truthy (os_environ w !! "SPACE_AUTHOR_NAME")).
Qed.



Lemma from_env_config {E : Externals} w config w1 :
  from_env w = (Return config, w1) ->
  let system_token := secrets w !! "HF_TOKEN" in
  let user_token := session_state w !! "user_hf_token" in
  exists token name,
    py_or user_token system_token = Some token
    /\ token <> EmptyString
    /\ config = Config_init token name (truthy user_token).
Proof.
  rewrite from_env_run. cbv zeta.
  destruct (lookup_username _ _ w) as [[name|e] w2]; [|discriminate].
  destruct (truthy (py_or _ _)) eqn:Hor; [|discriminate].
  intros [= <- <-].
  destruct (py_or _ _) as [token|]; [|discriminate Hor].
  exists token, name. split; [done|]. split; [|done].
  intros ->. discriminate Hor.
Qed.

(** X6.  A configuration that [from_env] built lets [convert_model] honour
    Trust Remote Code exactly when the operator gave a token of their own:
    without one the request is refused and nothing is started; with one the
    child process is started with [--trust_remote_code]. *)
Theorem trust_follows_operator_token {E : Externals} :
  forall (w w1 : World) (config : Config),
    from_env w = (Return config, w1) ->
    let user_token := session_state w !! "user_hf_token" in
    forall (input_model_id : string) (w2 : World),
      (truthy user_token = false ->
       convert_model config input_model_id true w2
       = (Return (false, exn_str trust_rejected), w2))
      /\ (truthy user_token = true ->
          spawn_requests
            (new_events w2 (convert_model config input_model_id true w2).2)
          = [([sys_executable; "-m"; "scripts.convert"; "--quantize";
               "--model_id"; input_model_id; "--trust_remote_code"],
              repo_path config, {[ "HF_TOKEN" := hf_token config ]})]).
Proof.
  intros w w1 config Hcfg user_token id w2.
  destruct (from_env_config _ _ _ Hcfg) as (token & name & _ & _ & ->).
  fold user_token. rewrite convert_model_run. cbn [is_using_user_token Config_init].
  split; intros ->; cbn [andb negb snd]; [done|].
  by rewrite new_events_set_fs_add_event.
Qed.

Lemma trust_follows_operator_token_witness :
  convert_model (E := all_fine) (Config_init "hf_secret" "alice" false)
    "bob/foo" true fresh_world
  = (Return (false, exn_str trust_rejected), fresh_world).
Proof.
  apply (proj1 (trust_follows_operator_token (E := all_fine) ready_world
                  ready_world (Config_init "hf_secret" "alice" false)
                  ltac:(vm_compute; reflexivity) "bob/foo" fresh_world)).
  vm_compute. reflexivity.
Defined.

(** X7.  The token the child process receives is the one [from_env] chose:
    the operator's token whenever one is given, the system token otherwise;
    it is never empty. *)
Theorem child_token_is_chosen_token {E : Externals} :
  forall (w w1 : World) (config : Config),
    from_env w = (Return config, w1) ->
    let system_token := secrets w !! "HF_TOKEN" in
    let user_token := session_state w !! "user_hf_token" in
    exists token,
      (if truthy user_token then user_token else system_token) = Some token
      /\ token <> EmptyString
      /\ forall input_model_id trust_remote_code w2 cmd cwd env,
           In (cmd, cwd, env)
              (spawn_requests
                 (new_events w2
                    (convert_model config input_model_id trust_remote_code
                       w2).2)) ->
           env = {[ "HF_TOKEN" := token ]}.
Proof.
  intros w w1 config Hcfg system_token user_token.
  destruct (from_env_config _ _ _ Hcfg) as (token & name & Hor & Hne & ->).
  exists token. split; [exact Hor|]. split; [exact Hne|].
  intros id trust w2 cmd cwd env. rewrite convert_model_run.
  destruct (trust && _); cbn [snd].
  - rewrite new_events_refl. intros [].
  - rewrite new_events_set_fs_add_event. cbn. intros [[= _ _ <-]|[]]. done.
Qed.

Lemma child_token_is_chosen_token_witness :
  exists token,
    (if truthy (session_state user_token_world !! "user_hf_token")
     then session_state user_token_world !! "user_hf_token"
     else secrets user_token_world !! "HF_TOKEN") = Some token
    /\ token = "hf_user".
Proof.
  destruct (child_token_is_chosen_token (E := all_fine) user_token_world
              (add_event (EvWhoami (Some "hf_user") (Return "alice"))
                 user_token_world)
              (Config_init "hf_user" "alice" true)
              ltac:(vm_compute; reflexivity))
    as (token & Htok & _ & _).
  exists token. split; [exact Htok|].
  vm_compute in Htok. by injection Htok as <-.
Defined.

(** ** Publishing: the calls and the README *)

Lemma upload_model_run {E : Externals} config input output w :
  let folder := model_folder_path_of config input in
  let readme := (folder ++ ["README.md"])%list in
  let r1 := ext_create_repo w output true false in
  let w1 := add_event (EvCreateRepo output true false r1) w in
  upload_model config input output w
  = match r1 with
    | Raise e => (Return (Some (exn_str e)), set_fs (rmtree folder (fs w)) w1)
    | Return _ =>
        match
          (if negb (path_exists (fs w1) readme)
           then open_write folder "README.md" (generate_readme input)
           else ret tt) w1
        with
        | (Raise e, w2) =>
            (Return (Some (exn_str e)), set_fs (rmtree folder (fs w2)) w2)
        | (Return _, w2) =>
            let r2 := ext_upload_folder w2 (path_str folder) output in
            (Return (match r2 with
                     | Return _ => None
                     | Raise e => Some (exn_str e)
                     end),
             set_fs (rmtree folder (fs w2))
               (add_event (EvUploadFolder (path_str folder) output r2) w2))
        end
    end.
Proof.
  cbv zeta. unfold upload_model. cbv zeta.
  destruct (ext_create_repo w output true false) as [[]|e1] eqn:Hc.
  2:{ etrans.
      { apply try_finally_modify_fs_run.
        unfold try_except. rewrite bind_run, call_create_repo_run, Hc.
        reflexivity. }
      reflexivity. }
  match goal with
  | |- context [(if ?b then ?m1 else ?m2) ?w0] =>
      destruct ((if b then m1 else m2) w0) as [[[]|e2] w2] eqn:Hstep
  end.
  - destruct (ext_upload_folder w2 _ output) as [[]|e3] eqn:Hu.
    all: etrans;
      [apply try_finally_modify_fs_run;
       unfold try_except; rewrite bind_run, call_create_repo_run, Hc;
       cbv beta iota; rewrite bind_run; unfold get_world at 1;
       cbv beta iota; rewrite bind_run, Hstep;
       rewrite bind_run, call_upload_folder_run, Hu; reflexivity|].
    all: reflexivity.
  - etrans.
    { apply try_finally_modify_fs_run.
      unfold try_except. rewrite bind_run, call_create_repo_run, Hc.
      cbv beta iota. rewrite bind_run. unfold get_world at 1.
      cbv beta iota. rewrite bind_run, Hstep. reflexivity. }
    reflexivity.
Qed.

Lemma generate_readme_pure input :
  exists text, forall w, generate_readme input w = (Return text, w).
Proof.
  unfold generate_readme, bind, of_outcome, ret.
  destruct (py_index_last_split input) as [seg ->]. eauto.
Qed.

Lemma open_write_readme_exact parent name input w :
  fs w !! parent = Some Dir ->
  exists text,
    (forall w0, generate_readme input w0 = (Return text, w0))
    /\ open_write parent name (generate_readme input) w
       = (Return tt, set_fs (<[(parent ++ [name])%list := File text]> (fs w)) w).
Proof.
  intros Hdir. destruct (generate_readme_pure input) as [text Htext].
  exists text. split; [exact Htext|].
  unfold open_write. rewrite bind_run. unfold get_world at 1.
  cbv beta iota. rewrite Hdir. rewrite bind_run. unfold modify_fs at 1.
  cbv beta iota. rewrite bind_run, Htext. cbv beta iota.
  unfold modify_fs. cbn. by rewrite insert_insert_eq.
Qed.

(** X8.  [upload_model] first calls [create_repo] on the destination with
    [exist_ok=True] and [private=False]; it calls [upload_folder] at most
    once, only after [create_repo] returned, with the model folder and the
    same destination; it makes no other call. *)
Theorem upload_model_protocol {E : Externals} :
  forall (config : Config) (input_model_id output_model_id : string)
         (w : World),
    let evs :=
      new_events w (upload_model config input_model_id output_model_id w).2 in
    exists r1,
      evs = [EvCreateRepo output_model_id true false r1]
      \/ (r1 = Return tt
          /\ exists r2,
               evs = [EvCreateRepo output_model_id true false r1;
                      EvUploadFolder
                        (path_str (model_folder_path_of config input_model_id))
                        output_model_id r2]).
Proof.
  intros config input output w evs. subst evs.
  rewrite upload_model_run. cbv zeta.
  exists (ext_create_repo w output true false).
  destruct (ext_create_repo w output true false) as [[]|e1].
  2:{ left. cbn [snd]. by apply new_events_app. }
  set (w1 := add_event _ w).
  set (folder := model_folder_path_of config input).
  assert (Hstep : exists o w2,
    (if negb (path_exists (fs w1) (folder ++ ["README.md"])%list)
     then open_write folder "README.md" (generate_readme input)
     else ret tt) w1 = (o, w2) /\ trace w2 = trace w1).
  { destruct (negb _).
    - destruct (open_write_readme_run folder "README.md" input w1)
        as (o & w2 & Hrun & Ht & _). eauto.
    - by exists (Return tt), w1. }
  destruct Hstep as (o & w2 & -> & Ht).
  destruct o as [[]|e2]; cbn [snd].
  - right. split; [done|]. eexists. apply new_events_app.
    cbn. rewrite Ht. cbn. by rewrite <- app_assoc.
  - left. apply new_events_app. cbn. by rewrite Ht.
Qed.

(** X9.  Whenever [upload_folder] is called, the folder holds a
    [README.md]: the one that was there, with the disk untouched, or else
    the text of [generate_readme], written into the existing folder just
    before the call.  Without a README and without the folder the upload is
    never reached. *)
Theorem upload_model_readme {E : Externals} :
  forall (config : Config) (input_model_id output_model_id : string)
         (w : World),
    let folder := model_folder_path_of config input_model_id in
    let readme := (folder ++ ["README.md"])%list in
    forall f repo r,
      In (EvUploadFolder f repo r)
         (new_events w
            (upload_model config input_model_id output_model_id w).2) ->
      exists w2,
        r = ext_upload_folder w2 f repo
        /\ ((exists n, fs w !! readme = Some n /\ fs w2 = fs w)
            \/ (fs w !! readme = None
                /\ fs w !! folder = Some Dir
                /\ exists text,
                     (forall w0,
                        generate_readme input_model_id w0 = (Return text, w0))
                     /\ fs w2 = <[readme := File text]> (fs w))).
Proof.
  intros config input output w folder readme f repo r.
  rewrite upload_model_run. cbv zeta. fold folder. fold readme.
  destruct (ext_create_repo w output true false) as [[]|e1].
  2:{ cbn [snd]. erewrite new_events_app by reflexivity.
      intros [Hin|[]]. discriminate Hin. }
  set (w1 := add_event _ w).
  destruct (path_exists (fs w1) readme) eqn:Hex; cbn [negb].
  - unfold ret at 1. cbn [snd].
    erewrite new_events_app
      by (cbn; rewrite <- app_assoc; reflexivity).
    intros [Hin|[Hin|[]]]; [discriminate Hin|]. injection Hin as <- <- <-.
    exists w1. split; [done|]. left.
    apply path_exists_true in Hex as [n Hn]. by exists n.
  - apply path_exists_false in Hex.
    destruct (fs w1 !! folder) as [[|c]|] eqn:Hfolder.
    + destruct (open_write_readme_exact folder "README.md" input w1 Hfolder)
        as (text & Htext & ->).
      cbn [snd].
      erewrite new_events_app
        by (cbn; rewrite <- app_assoc; reflexivity).
      intros [Hin|[Hin|[]]]; [discriminate Hin|]. injection Hin as <- <- <-.
      eexists. split; [reflexivity|]. right. eauto.
    + destruct (open_write_readme_run folder "README.md" input w1)
        as (o & w2 & -> & Ht & Hfail & _).
      destruct Hfail as [e ->]; [by rewrite Hfolder|].
      cbn [snd]. erewrite new_events_app by (cbn; rewrite Ht; reflexivity).
      intros [Hin|[]]. discriminate Hin.
    + destruct (open_write_readme_run folder "README.md" input w1)
        as (o & w2 & -> & Ht & Hfail & _).
      destruct Hfail as [e ->]; [by rewrite Hfolder|].
      cbn [snd]. erewrite new_events_app by (cbn; rewrite Ht; reflexivity).
      intros [Hin|[]]. discriminate Hin.
Qed.

Lemma upload_model_readme_witness :
  exists w2,
    fs w2 !! (pythia_folder ++ ["README.md"])%list
    = Some (File ("---" +:+ newline
       +:+ "library_name: transformers.js" +:+ newline
       +:+ "base_model:" +:+ newline
       +:+ "- EleutherAI/pythia-14m" +:+ newline
       +:+ "---" +:+ newline +:+ newline
       +:+ "# pythia-14m (ONNX)" +:+ newline +:+ newline
       +:+ "This is an ONNX version of [EleutherAI/pythia-14m]"
       +:+ "(https://huggingface.co/EleutherAI/pythia-14m). "
       +:+ "It was automatically converted and uploaded using "
       +:+ "[this space](https://huggingface.co/spaces/onnx-community/convert-to-onnx)."
       +:+ newline)).
Proof.
  destruct (upload_model_readme (E := all_fine) (config_alice false)
              "EleutherAI/pythia-14m" "alice/pythia-14m-ONNX" converted_world
              "transformers.js/models/EleutherAI/pythia-14m"
              "alice/pythia-14m-ONNX" (Return tt))
    as (w2 & _ & [(n & Hn & _)|(_ & _ & text & Htext & Hfs)]).
  - vm_compute. auto.
  - vm_compute in Hn. discriminate Hn.
  - exists w2. rewrite Hfs, lookup_insert_eq.
    specialize (Htext empty_world). vm_compute in Htext.
    injection Htext as <-. vm_compute. reflexivity.
Defined.

(** ** The upload report *)

Lemma upload_model_outcome {E : Externals} config input output w :
  exists error w' evs,
    upload_model config input output w = (Return error, w')
    /\ trace w' = (trace w ++ evs)%list
    /\ Forall (fun ev => ~ is_st ev) evs
    /\ (forall f repo e,
          In (EvUploadFolder f repo (Raise e)) evs ->
          error = Some (exn_str e)).
Proof.
  rewrite upload_model_run. cbv zeta.
  destruct (ext_create_repo w output true false) as [[]|e1].
  2:{ do 3 eexists. split; [reflexivity|]. split; [reflexivity|].
      split; [repeat constructor; cbn; tauto|]. intros; in_events. }
  set (w1 := add_event _ w).
  set (folder := model_folder_path_of config input).
  assert (Hstep : exists o w2,
    (if negb (path_exists (fs w1) (folder ++ ["README.md"])%list)
     then open_write folder "README.md" (generate_readme input)
     else ret tt) w1 = (o, w2) /\ trace w2 = trace w1).
  { destruct (negb _).
    - destruct (open_write_readme_run folder "README.md" input w1)
        as (o & w2 & Hrun & Ht & _). eauto.
    - by exists (Return tt), w1. }
  destruct Hstep as (o & w2 & -> & Ht).
  destruct o as [[]|e2].
  - destruct (ext_upload_folder w2 (path_str folder) output) as [[]|e3].
    all: do 3 eexists; (split; [reflexivity|]).
    all: split; [cbn; rewrite Ht; cbn; rewrite <- app_assoc; reflexivity|].
    all: split; [repeat constructor; cbn; tauto|]; intros; in_events.
  - do 3 eexists. split; [reflexivity|].
    split; [cbn; rewrite Ht; reflexivity|].
    split; [repeat constructor; cbn; tauto|]. intros; in_events.
Qed.

(** X10.  After a conversion that succeeded, what the page reports about the
    upload follows the text [upload_model] returned, not the failure itself:
    when [upload_folder] raises an exception with a message, the page shows
    "Upload failed" with it; when the exception has an empty message, the
    page shows "Upload successful!" and the link. *)
Theorem upload_report_follows_message {E : Externals} :
  forall (config : Config)
         (input_model_id output_model_id output_model_url stderr : string)
         (w : World),
    let evs :=
      new_events w
        (upload_stage config input_model_id output_model_id output_model_url
           stderr w).2 in
    forall f repo e,
      In (EvUploadFolder f repo (Raise e)) evs ->
      (exn_str e <> EmptyString ->
       In (EvSt "error" ["Upload failed: " +:+ exn_str e]) evs
       /\ ~ In (EvSt "success" ["Upload successful!"]) evs)
      /\ (exn_str e = EmptyString ->
          In (EvSt "success" ["Upload successful!"]) evs
          /\ In (EvSt "link_button"
                   ["Go to " +:+ output_model_id; output_model_url; "primary"])
               evs
          /\ forall msg, ~ In (EvSt "error" [msg]) evs).
Proof.
  intros config input output url stderr w evs.
  assert (Hshape : exists error evs_u,
    (forall f repo e,
       In (EvUploadFolder f repo (Raise e)) evs_u -> error = Some (exn_str e))
    /\ Forall (fun ev => ~ is_st ev) evs_u
    /\ evs
       = ([EvSt "success" ["Conversion successful!"]; EvSt "code" [stderr];
           EvSt "spinner" ["Uploading model..."]]
          ++ evs_u
          ++ (if truthy error then
                [EvSt "error" ["Upload failed: " +:+ default EmptyString error]]
              else
                [EvSt "success" ["Upload successful!"];
                 EvSt "write"
                   ["You can now go and view the model on Hugging Face!"];
                 EvSt "link_button"
                   ["Go to " +:+ output; url; "primary"]]))%list).
  { subst evs. unfold upload_stage.
    do 3 (rewrite bind_run; unfold st_call at 1; unfold emit at 1;
          cbv beta iota).
    set (w3 := add_event _ (add_event _ (add_event _ w))).
    rewrite bind_run.
    destruct (upload_model_outcome config input output w3)
      as (error & w' & evs_u & -> & Ht & Hnost & Herr).
    cbv beta iota. exists error, evs_u. split; [exact Herr|].
    split; [exact Hnost|]. apply new_events_app.
    destruct (truthy error); cbn; rewrite Ht; cbn;
      by rewrite <- !app_assoc. }
  destruct Hshape as (error & evs_u & Herr & Hnost & Hevs).
  clearbody evs. subst evs. intros f repo e Hin.
  assert (Hin_u : forall call args, ~ In (EvSt call args) evs_u).
  { intros call args Hc. rewrite Forall_forall in Hnost.
    apply list_elem_of_In, Hnost in Hc. by apply Hc. }
  assert (Herror : error = Some (exn_str e)).
  { rewrite !in_app_iff in Hin.
    destruct Hin as [Hin|[Hin|Hin]]; [in_events|by eapply Herr|].
    destruct (truthy error); in_events. }
  subst error. cbn [truthy default] in *.
  destruct (String.eqb_spec (exn_str e) EmptyString) as [Hempty|Hne];
    cbn [negb] in *.
  - split; [done|]. intros _. split; [|split].
    + rewrite !in_app_iff. right. right. by left.
    + rewrite !in_app_iff. right. right. right. right. by left.
    + intros msg. rewrite !in_app_iff.
      intros [Hc|[Hc|Hc]]; [in_events|by apply Hin_u in Hc|in_events].
  - split; [|done]. intros _. split.
    + rewrite !in_app_iff. right. right. by left.
    + rewrite !in_app_iff.
      intros [Hc|[Hc|Hc]]; [in_events|by apply Hin_u in Hc|in_events].
Qed.

Lemma upload_report_follows_message_witness :
  In (EvSt "success" ["Upload successful!"])
     (new_events converted_world
        (upload_stage (E := silent_upload_failure) (config_alice false)
           "EleutherAI/pythia-14m" "alice/pythia-14m-ONNX"
           "https://huggingface.co/alice/pythia-14m-ONNX" "done"
           converted_world).2).
Proof.
  apply (proj2 (upload_report_follows_message (E := silent_upload_failure)
                  (config_alice false) "EleutherAI/pythia-14m"
                  "alice/pythia-14m-ONNX"
                  "https://huggingface.co/alice/pythia-14m-ONNX" "done"
                  converted_world
                  "transformers.js/models/EleutherAI/pythia-14m"
                  "alice/pythia-14m-ONNX"
                  (mkExn "TimeoutError" EmptyString)
                  ltac:(vm_compute; auto 10))
           eq_refl).
Defined.

(** ** Naming and the output folder *)

Lemma str_split_two_segments sep s t :
  exists seg segs, str_split sep (s +:+ String sep t) = seg :: segs
                   /\ segs <> [].
Proof.
  induction s as [|c s IH].
  - rewrite append_empty_l. cbn. rewrite Ascii.eqb_refl.
    exists EmptyString, (str_split sep t). split; [done|].
    apply str_split_nonempty.
  - rewrite append_cons. cbn. destruct IH as (seg & segs & -> & Hne).
    destruct (Ascii.eqb c sep); eauto.
Qed.

Lemma last_cons_nonempty {A} (x : A) l : l <> [] -> last (x :: l) = last l.
Proof. by destruct l. Qed.

Lemma str_split_last_after sep s t :
  last (str_split sep (s +:+ String sep t)) = last (str_split sep t).
Proof.
  induction s as [|c s IH].
  - rewrite append_empty_l. cbn. rewrite Ascii.eqb_refl.
    apply last_cons_nonempty, str_split_nonempty.
  - rewrite append_cons. cbn.
    destruct (str_split_two_segments sep s t) as (seg & segs & Hsplit & Hne).
    rewrite Hsplit in IH |- *.
    destruct (Ascii.eqb c sep).
    + rewrite <- IH. by apply last_cons_nonempty.
    + rewrite <- IH. by rewrite !last_cons_nonempty.
Qed.

(** X11.  For an id with more than one ["/"], [ns/middle/name], the
    destination keeps the last segment only and the ownership test looks at
    the first segment only: whatever stands in the middle is dropped, so
    sources that differ there get the same destination. *)
Theorem destination_drops_middle_segments :
  forall (config : Config) (ui : UI) (ns middle name : string) (w : World),
    has_slash ns = false -> has_slash name = false ->
    let reuse := String.eqb (hf_username config) ns && ui_same_repo ui in
    (resolve_output_model_id config ui
       (ns +:+ "/" +:+ middle +:+ "/" +:+ name) w).1
    = Return (reuse,
              if reuse then hf_username config +:+ "/" +:+ name
              else hf_username config +:+ "/" +:+ name +:+ "-ONNX").
Proof.
  intros config ui ns middle name w Hns Hname reuse. subst reuse.
  unfold resolve_output_model_id, bind, of_outcome.
  change ("/" +:+ middle +:+ "/" +:+ name)
    with (String slash (middle +:+ String slash name)).
  rewrite (str_split_cut ns _ Hns). cbn [py_index_first].
  unfold py_index_last.
  rewrite (last_cons_nonempty ns) by apply str_split_nonempty.
  rewrite str_split_last_after, (str_split_no_slash name Hname).
  cbn. rewrite !append_assoc.
  destruct (String.eqb (hf_username config) ns); cbn; [|done].
  by destruct (ui_same_repo ui).
Qed.

Lemma destination_drops_middle_segments_witness :
  (resolve_output_model_id (config_alice false) ui_pythia
     ("bob" +:+ "/" +:+ "v1/fp16" +:+ "/" +:+ "foo") empty_world).1
  = Return (false, "alice/foo-ONNX").
Proof.
  exact (destination_drops_middle_segments (config_alice false) ui_pythia
           "bob" "v1/fp16" "foo" empty_world eq_refl eq_refl).
Defined.

Lemma path_parts_clean_pair ns name :
  clean_segment ns -> clean_segment name ->
  path_parts (ns +:+ "/" +:+ name) = [ns; name].
Proof.
  intros (Hns & Hns1 & Hns2) (Hname & Hname1 & Hname2). unfold path_parts.
  change ("/" +:+ name) with (String slash name).
  rewrite (str_split_cut ns name Hns), (str_split_no_slash name Hname).
  rewrite filter_cons_True by done. rewrite filter_cons_True by done. done.
Qed.

Lemma starts_with_slash_clean ns rest :
  clean_segment ns -> starts_with_slash (ns +:+ rest) = false.
Proof.
  intros (Hns & Hne & _). destruct ns as [|c ns]; [done|].
  rewrite append_cons. cbn in *. by apply orb_false_iff in Hns as [-> _].
Qed.

(** X12.  For an id [ns/name] of two ordinary segments, the folder that
    [upload_model] uploads and removes is [models/ns/name] below the working
    directory [convert_model] gives the child process. *)
Theorem output_folder_under_child_cwd {E : Externals} :
  forall (config : Config) (ns name : string) (trust_remote_code : bool)
         (w : World) cmd cwd env,
    clean_segment ns -> clean_segment name ->
    In (cmd, cwd, env)
       (spawn_requests
          (new_events w
             (convert_model config (ns +:+ "/" +:+ name) trust_remote_code
                w).2)) ->
    model_folder_path_of config (ns +:+ "/" +:+ name)
    = (cwd ++ ["models"; ns; name])%list.
Proof.
  intros config ns name trust w cmd cwd env Hns Hname.
  rewrite convert_model_run.
  destruct (trust && _); cbn [snd].
  { rewrite new_events_refl. intros []. }
  rewrite new_events_set_fs_add_event. cbn. intros [[= _ <- _]|[]].
  unfold model_folder_path_of, path_join at 1.
  rewrite (starts_with_slash_clean ns _ Hns).
  rewrite (path_parts_clean_pair ns name Hns Hname).
  unfold path_join. change (starts_with_slash "models") with false.
  cbv iota. rewrite <- app_assoc. f_equal.
Qed.

Lemma output_folder_under_child_cwd_witness :
  model_folder_path_of (config_alice false)
    ("EleutherAI" +:+ "/" +:+ "pythia-14m")
  = (["transformers.js"] ++ ["models"; "EleutherAI"; "pythia-14m"])%list.
Proof.
  apply (output_folder_under_child_cwd (E := all_fine) (config_alice false)
           "EleutherAI" "pythia-14m" false ready_world
           ["/usr/bin/python3"; "-m"; "scripts.convert"; "--quantize";
            "--model_id"; "EleutherAI/pythia-14m"]
           ["transformers.js"] {[ "HF_TOKEN" := "hf_secret" ]}).
  - split; [reflexivity|split; discriminate].
  - split; [reflexivity|split; discriminate].
  - vm_compute. auto.
Defined.

(** ** Runs of [main] *)

Lemma main_run {E : Externals} ui w :
  main ui w
  = match from_env (add_event title_event w) with
    | (Raise e, w2) => (Return tt, reported e w2)
    | (Return config, w2) =>
        match main_after_config config ui w2 with
        | (Return a, w3) => (Return a, w3)
        | (Raise e, w3) => (Return tt, reported e w3)
        end
    end.
Proof.
  unfold main. rewrite bind_run. unfold st_call at 1, emit at 1.
  cbv beta iota. unfold try_except. rewrite bind_run.
  fold title_event.
  destruct (from_env (add_event title_event w)) as [[config|e] w2]; [|done].
  cbv beta iota zeta.
  change (setup_repository config;;;
          request <- collect_request ui;;
          match request with
          | Some (input_model_id, trust_remote_code) =>
              target <- resolve_output_model_id config ui input_model_id;;
              publish_unless_present config ui input_model_id
                trust_remote_code target.1 target.2
          | None => ret ()
          end) with (main_after_config config ui).
  by destruct (main_after_config config ui w2) as [[[]|e] w3].
Qed.

Lemma emits_bind_result {A B} P (m : Py A) (k : A -> Py B) (a0 : A) :
  emits P m ->
  (forall w a w', m w = (Return a, w') -> a = a0) ->
  emits P (k a0) ->
  emits P (bind m k).
Proof.
  intros Hm Hres Hk w. unfold bind.
  destruct (Hm w) as (evs1 & E1 & F1).
  destruct (m w) as [[a|e] w1] eqn:Hrun; cbn in *.
  - rewrite (Hres _ _ _ Hrun).
    destruct (Hk w1) as (evs2 & E2 & F2).
    exists (evs1 ++ evs2)%list. rewrite E2, E1, app_assoc.
    split; [done|by apply Forall_app].
  - by exists evs1.
Qed.

Lemma collect_request_result ui w a w' :
  collect_request ui w = (Return a, w') ->
  a = if String.eqb (ui_model_id ui) EmptyString then None
      else Some (ui_model_id ui, ui_trust_remote_code ui).
Proof.
  unfold collect_request, bind, st_call, emit, ret.
  destruct (String.eqb (ui_model_id ui) EmptyString); cbn.
  - by intros [= <- _].
  - destruct (ui_trust_remote_code ui); cbn; by intros [= <- _].
Qed.

Lemma resolve_and_publish_emits {E : Externals} P config ui id trust :
  P checkbox_event ->
  (forall repo r, P (EvRepoExists repo r)) ->
  (forall cmd cwd env r, P (EvSubprocessRun cmd cwd env r)) ->
  (forall repo a b r, P (EvCreateRepo repo a b r)) ->
  (forall folder repo r, P (EvUploadFolder folder repo r)) ->
  (forall call args, call <> "checkbox" -> P (EvSt call args)) ->
  emits P (resolve_and_publish config ui id trust).
Proof.
  intros H0 H1 H2 H3 H4 H5.
  apply (resolve_and_publish_adds (Forall P)); intros out.
  - by apply publish_unless_present_emits.
  - intros w.
    destruct (publish_unless_present_emits P config ui id trust
                (ui_same_repo ui) out) with (w := w) as (l & Ht & Hl);
      try done.
    exists l. split; [done|by constructor].
Qed.

Lemma main_after_config_emits {E : Externals} P config ui :
  (forall url r, P (EvUrlOpen url r)) ->
  (forall url f r, P (EvUrlRetrieve url f r)) ->
  (forall level msg, P (EvLog level msg)) ->
  emits P (collect_request ui) ->
  (ui_model_id ui <> EmptyString ->
   emits P (resolve_and_publish config ui (ui_model_id ui)
              (ui_trust_remote_code ui))) ->
  emits P (main_after_config config ui).
Proof.
  intros H1 H2 H3 H4 Hwork. unfold main_after_config.
  apply emits_bind; [by apply setup_repository_emits|intros _].
  eapply emits_bind_result.
  - exact H4.
  - apply collect_request_result.
  - destruct (String.eqb_spec (ui_model_id ui) EmptyString) as [Hid|Hid].
    + apply emits_ret.
    + by apply Hwork.
Qed.

Lemma main_emits {E : Externals} P ui :
  P title_event ->
  (forall tok r, P (EvWhoami tok r)) ->
  P (EvLog "exception" "Application error") ->
  (forall msg, P (EvSt "error" [msg])) ->
  (forall config, emits P (main_after_config config ui)) ->
  forall w, Forall P (new_events w (main ui w).2).
Proof.
  intros H0 H1 H2 H3 Hafter w.
  assert (Hmain : emits P (main ui)).
  { unfold main. apply emits_bind; [apply emits_emit; exact H0|intros _].
    apply emits_try_except.
    - apply emits_bind; [by apply from_env_emits|intros config].
      apply Hafter.
    - intros e. apply emits_bind; [apply emits_emit; exact H2|intros _].
      apply emits_emit, H3. }
  destruct (Hmain w) as (evs & Ht & Hevs).
  by rewrite (new_events_app _ _ _ Ht).
Qed.

(** X13.  While the id field is empty, a run of [main] asks the registry
    for nothing but the account name, starts no conversion and publishes
    nothing; the page shows only the title, the id field and, if
    configuration or provisioning failed, the error. *)
Theorem main_waits_for_model_id {E : Externals} :
  forall (ui : UI) (w : World),
    ui_model_id ui = EmptyString ->
    Forall idle_event (new_events w (main ui w).2).
Proof.
  intros ui w Hid. apply main_emits; try (cbn; by auto).
  intros config. apply main_after_config_emits; try (intros; cbn; by auto).
  unfold collect_request. rewrite Hid. cbn [String.eqb].
  emits_auto ltac:(cbn; by auto).
Qed.

Lemma main_waits_for_model_id_witness :
  Forall idle_event
    (new_events fresh_world
       (main (E := all_fine) (mkUI EmptyString true true true) fresh_world).2).
Proof.
  exact (main_waits_for_model_id (E := all_fine)
           (mkUI EmptyString true true true) fresh_world eq_refl).
Defined.

(** X14.  Unless the operator presses Proceed, a run of [main] starts no
    child process and calls neither [create_repo] nor [upload_folder],
    whatever was entered and whatever the registry answered. *)
Theorem main_needs_proceed {E : Externals} :
  forall (ui : UI) (w : World),
    ui_proceed ui = false ->
    Forall before_conversion (new_events w (main ui w).2).
Proof.
  intros ui w Hproceed. apply main_emits; try (cbv; tauto).
  intros config. apply main_after_config_emits; try (intros; cbv; tauto).
  { apply collect_request_emits. intros; cbv; tauto. }
  intros _.
  assert (Hpub : forall same_repo out,
            emits before_conversion
              (publish_unless_present config ui (ui_model_id ui)
                 (ui_trust_remote_code ui) same_repo out)).
  { intros same_repo out. unfold publish_unless_present. rewrite Hproceed.
    cbv zeta. cbn [negb]. unfold call_repo_exists.
    emits_auto ltac:(cbv; tauto). }
  apply (resolve_and_publish_adds (Forall before_conversion)).
  - intros out. apply Hpub.
  - intros out w0. destruct (Hpub (ui_same_repo ui) out w0) as (l & Ht & Hl).
    exists l. split; [done|]. constructor; [cbv; tauto|done].
Qed.

Lemma main_needs_proceed_witness :
  Forall before_conversion
    (new_events ready_world
       (main (E := all_fine)
          (mkUI "EleutherAI/pythia-14m" false false false) ready_world).2).
Proof.
  exact (main_needs_proceed (E := all_fine)
           (mkUI "EleutherAI/pythia-14m" false false false) ready_world
           eq_refl).
Defined.

Lemma from_env_cases {E : Externals} w :
  exists o w2 evs,
    from_env w = (o, w2)
    /\ trace w2 = (trace w ++ evs)%list
    /\ ((exists token e, o = Raise e /\ evs = [EvWhoami token (Raise e)])
        \/ Forall no_whoami_failure evs).
Proof.
  rewrite from_env_run. cbv zeta. rewrite lookup_username_run.
  set (user := session_state w !! "user_hf_token").
  set (system := secrets w !! "HF_TOKEN").
  assert (Hcall : forall token,
    exists o w2 evs,
      match (ext_whoami w token,
             add_event (EvWhoami token (ext_whoami w token)) w) with
      | (Return name, w1) =>
          if truthy (py_or user system)
          then (Return (Config_init (default EmptyString (py_or user system))
                          name (truthy user)), w1)
          else (Raise missing_token_error, w1)
      | (Raise e, w1) => (Raise e, w1)
      end = (o, w2)
      /\ trace w2 = (trace w ++ evs)%list
      /\ ((exists token e, o = Raise e /\ evs = [EvWhoami token (Raise e)])
          \/ Forall no_whoami_failure evs)).
  { intros token. destruct (ext_whoami w token) as [name|e].
    - destruct (truthy (py_or user system));
        do 3 eexists; (split; [reflexivity|]); (split; [reflexivity|]);
        right; repeat constructor; intros ??; discriminate.
    - do 3 eexists. split; [reflexivity|]. split; [reflexivity|].
      left. eauto. }
  destruct (truthy user); [apply Hcall|].
  destruct (truthy (os_environ w !! "SPACE_AUTHOR_NAME")); [|apply Hcall].
  destruct (truthy (py_or user system));
    do 2 eexists; exists []; (split; [reflexivity|]);
    (split; [by rewrite app_nil_r|]); by right.
Qed.

Lemma main_after_config_no_whoami {E : Externals} config ui :
  emits no_whoami_failure (main_after_config config ui).
Proof.
  apply main_after_config_emits; try (intros; intros ??; discriminate).
  - apply collect_request_emits. intros; intros ??; discriminate.
  - intros _. apply resolve_and_publish_emits;
      intros; intros ??; discriminate.
Qed.

(** X15.  When the registry refuses the [whoami] call, the run of [main]
    consists of the title, that call, the log entry and the error message
    with the text of the exception: [main] itself returns, and nothing is
    downloaded, shown or asked after the failure. *)
Theorem main_reports_rejected_token {E : Externals} :
  forall (ui : UI) (w : World) (token : option string) (e : PyException),
    In (EvWhoami token (Raise e)) (new_events w (main ui w).2) ->
    new_events w (main ui w).2
    = [title_event; EvWhoami token (Raise e);
       EvLog "exception" "Application error";
       EvSt "error" ["An error occurred: " +:+ exn_str e]]
    /\ (main ui w).1 = Return tt.
Proof.
  intros ui w token e. rewrite main_run.
  destruct (from_env_cases (add_event title_event w))
    as (o & w2 & evs & -> & Ht & Hcases).
  assert (Hno : forall l,
            Forall no_whoami_failure l ->
            ~ In (EvWhoami token (Raise e)) l).
  { intros l Hl Hin. rewrite Forall_forall in Hl.
    apply list_elem_of_In, Hl in Hin. by apply (Hin token e). }
  destruct Hcases as [(token' & e' & -> & ->)|Hevs].
  - cbn [snd fst].
    erewrite new_events_app
      by (cbn; rewrite Ht; cbn; rewrite <- !app_assoc; reflexivity).
    intros [Hin|[Hin|[Hin|[Hin|[]]]]]; try discriminate Hin.
    by injection Hin as -> ->.
  - intros Hin. exfalso. revert Hin.
    assert (Htitle : no_whoami_failure title_event) by (intros ??; discriminate).
    destruct o as [config|e0].
    + destruct (main_after_config_no_whoami config ui w2) as (l & Hl & Hfl).
      destruct (main_after_config config ui w2) as [[[]|e1] w3];
        cbn [snd] in *.
      * erewrite new_events_app
          by (rewrite Hl, Ht; cbn; rewrite <- !app_assoc; reflexivity).
        apply Hno. constructor; [done|]. by apply Forall_app.
      * erewrite new_events_app
          by (cbn; rewrite Hl, Ht; cbn; rewrite <- !app_assoc; reflexivity).
        apply Hno. constructor; [done|]. rewrite !Forall_app.
        split; [done|]. split; [done|].
        repeat constructor; intros ??; discriminate.
    + cbn [snd].
      erewrite new_events_app
        by (cbn; rewrite Ht; cbn; rewrite <- !app_assoc; reflexivity).
      apply Hno. constructor; [done|]. rewrite !Forall_app.
      split; [done|]. repeat constructor; intros ??; discriminate.
Qed.

Lemma main_reports_rejected_token_witness :
  new_events user_token_world
    (main (E := all_broken) ui_pythia user_token_world).2
  = [title_event;
     EvWhoami (Some "hf_user")
       (Raise (http_error "401 Client Error: Unauthorized"));
     EvLog "exception" "Application error";
     EvSt "error" ["An error occurred: 401 Client Error: Unauthorized"]].
Proof.
  apply (main_reports_rejected_token (E := all_broken) ui_pythia
           user_token_world (Some "hf_user")
           (http_error "401 Client Error: Unauthorized")).
  vm_compute. auto.
Defined.

Ltac split_forall :=
  repeat match goal with
         | |- Forall _ (_ ++ _) => apply Forall_app; split
         | |- Forall _ (_ :: _) => apply Forall_cons; split
         | |- Forall _ [] => apply Forall_nil
         end.





(** ** The order of the calls to the collaborators *)

Lemma call_stages_quiet l : Forall quiet l -> call_stages l = [].
Proof.
  induction 1 as [|e l He _ IH]; [done|].
  unfold call_stages in *. cbn. unfold quiet in He. by rewrite He.
Qed.

Lemma in_window_quiet lo hi l : Forall quiet l -> in_window lo hi l.
Proof.
  intros H. unfold in_window. rewrite (call_stages_quiet _ H).
  split; constructor.
Qed.

Lemma in_window_single lo hi e n :
  stage_of e = Some n -> (lo <= n < hi)%nat -> in_window lo hi [e].
Proof.
  intros He Hn. unfold in_window, call_stages. cbn. rewrite He. cbn.
  split; repeat constructor; lia.
Qed.

Lemma in_window_app lo mid hi l1 l2 :
  (lo <= mid)%nat -> (mid <= hi)%nat ->
  in_window lo mid l1 -> in_window mid hi l2 -> in_window lo hi (l1 ++ l2).
Proof.
  intros Hlo Hhi [S1 F1] [S2 F2]. unfold in_window, call_stages in *.
  rewrite omap_app. split.
  - apply StronglySorted_app_2; [|done..].
    intros x1 x2 H1 H2.
    rewrite Forall_forall in F1, F2.
    specialize (F1 _ H1). specialize (F2 _ H2). lia.
  - apply Forall_app. split; (eapply Forall_impl; [eassumption|]);
      cbn; intros; lia.
Qed.

Lemma in_window_weaken lo hi lo' hi' l :
  (lo' <= lo)%nat -> (hi <= hi')%nat ->
  in_window lo hi l -> in_window lo' hi' l.
Proof.
  intros Hlo Hhi [S1 F1]. split; [done|].
  eapply Forall_impl; [exact F1|]. cbn. intros; lia.
Qed.

Section Paced.
Context {A B : Type}.

Lemma paced_quiet lo hi (m : Py A) : emits quiet m -> paced lo hi m.
Proof.
  intros Hm. eapply adds_of_emits; [exact Hm|]. apply in_window_quiet.
Qed.

Lemma paced_weaken lo hi lo' hi' (m : Py A) :
  (lo' <= lo)%nat -> (hi <= hi')%nat -> paced lo hi m -> paced lo' hi' m.
Proof.
  intros Hlo Hhi Hm w. destruct (Hm w) as (l & Ht & Hl).
  exists l. split; [done|]. by eapply in_window_weaken.
Qed.

Lemma paced_bind mid lo hi (m : Py A) (k : A -> Py B) :
  (lo <= mid)%nat -> (mid <= hi)%nat ->
  paced lo mid m -> (forall a, paced mid hi (k a)) -> paced lo hi (bind m k).
Proof.
  intros Hlo Hhi Hm Hk w. rewrite bind_run.
  destruct (Hm w) as (l1 & E1 & W1).
  destruct (m w) as [[a|e] w1]; cbn [snd] in *.
  - destruct (Hk a w1) as (l2 & E2 & W2).
    exists (l1 ++ l2)%list. rewrite E2, E1, app_assoc.
    split; [done|]. by eapply in_window_app.
  - exists l1. split; [done|]. eapply in_window_weaken; [| |exact W1]; lia.
Qed.

Lemma paced_try_except mid lo hi (m : Py A) h :
  (lo <= mid)%nat -> (mid <= hi)%nat ->
  paced lo mid m -> (forall e, paced mid hi (h e)) ->
  paced lo hi (try_except m h).
Proof.
  intros Hlo Hhi Hm Hh w. unfold try_except.
  destruct (Hm w) as (l1 & E1 & W1).
  destruct (m w) as [[a|e] w1]; cbn [snd] in *.
  - exists l1. split; [done|]. eapply in_window_weaken; [| |exact W1]; lia.
  - destruct (Hh e w1) as (l2 & E2 & W2).
    exists (l1 ++ l2)%list. rewrite E2, E1, app_assoc.
    split; [done|]. by eapply in_window_app.
Qed.

Lemma paced_try_finally lo hi (m : Py A) fin :
  paced lo hi m -> emits quiet fin -> paced lo hi (try_finally m fin).
Proof.
  intros Hm Hf w. unfold try_finally.
  destruct (Hm w) as (l1 & E1 & W1).
  destruct (m w) as [r w1]; cbn [snd] in *.
  destruct (Hf w1) as (l2 & E2 & F2).
  exists (l1 ++ l2)%list.
  assert (Hw : in_window lo hi (l1 ++ l2)).
  { destruct W1 as [S1 F1]. unfold in_window, call_stages in *.
    rewrite omap_app. fold (call_stages l2).
    by rewrite (call_stages_quiet _ F2), app_nil_r. }
  destruct (fin w1) as [[[]|e] w2]; cbn [snd] in *;
    rewrite E2, E1, app_assoc; done.
Qed.
End Paced.

Lemma paced_emit lo hi e n :
  stage_of e = Some n -> (lo <= n < hi)%nat -> paced lo hi (emit e).
Proof.
  intros He Hn. apply adds_emit. by eapply in_window_single.
Qed.

Ltac quiet_auto := emits_auto ltac:(reflexivity).

Ltac quiet_solve := solve [apply paced_quiet; quiet_auto].

(** A collaborator call: read the world, leave the event, act on the
    answer. *)
Ltac paced_call n :=
  intros; apply (paced_bind n); [lia|lia|quiet_solve|intros ?]; cbv zeta;
  apply (paced_bind (S n)); [lia|lia| |intros ?; quiet_solve];
  apply (paced_emit _ _ _ n); [reflexivity|lia].

Lemma call_whoami_paced {E : Externals} token :
  paced 0 1 (call_whoami token).
Proof. unfold call_whoami. paced_call 0%nat. Qed.

Lemma call_urlopen_getcode_paced {E : Externals} url :
  paced 1 2 (call_urlopen_getcode url).
Proof. unfold call_urlopen_getcode. paced_call 1%nat. Qed.

Lemma call_urlretrieve_paced {E : Externals} url f :
  paced 2 3 (call_urlretrieve url f).
Proof. unfold call_urlretrieve. paced_call 2%nat. Qed.

Lemma call_repo_exists_paced {E : Externals} repo_id :
  paced 3 4 (call_repo_exists repo_id).
Proof. unfold call_repo_exists. paced_call 3%nat. Qed.

Lemma call_subprocess_run_paced {E : Externals} cmd cwd env :
  paced 4 5 (call_subprocess_run cmd cwd env).
Proof. unfold call_subprocess_run. paced_call 4%nat. Qed.

Lemma call_create_repo_paced {E : Externals} repo_id exist_ok private :
  paced 5 6 (call_create_repo repo_id exist_ok private).
Proof. unfold call_create_repo. paced_call 5%nat. Qed.

Lemma call_upload_folder_paced {E : Externals} folder repo_id :
  paced 6 7 (call_upload_folder folder repo_id).
Proof. unfold call_upload_folder. paced_call 6%nat. Qed.

Lemma from_env_paced {E : Externals} : paced 0 1 from_env.
Proof.
  unfold from_env.
  apply (paced_bind 0); [lia|lia|quiet_solve|intros w0]. cbv zeta.
  apply (paced_bind 1); [lia|lia| |intros ?; quiet_solve].
  unfold lookup_username. destruct (truthy _); [apply call_whoami_paced|].
  apply (paced_bind 0); [lia|lia|quiet_solve|intros w1]. cbv zeta.
  destruct (truthy _); [quiet_solve|apply call_whoami_paced].
Qed.

Lemma _get_ref_type_paced {E : Externals} config :
  paced 1 2 (_get_ref_type config).
Proof.
  unfold _get_ref_type. cbv zeta.
  apply (paced_try_except 2); [lia|lia| |intros ?; quiet_solve].
  apply (paced_bind 2); [lia|lia| |intros ?; quiet_solve].
  apply call_urlopen_getcode_paced.
Qed.

Lemma _extract_archive_quiet {E : Externals} config archive :
  emits quiet (_extract_archive config archive).
Proof.
  unfold _extract_archive, extract_into, read_file, next_iterdir.
  quiet_auto.
Qed.

Lemma setup_repository_paced {E : Externals} config :
  paced 1 3 (setup_repository config).
Proof.
  unfold setup_repository.
  apply (paced_bind 1); [lia|lia|quiet_solve|intros w0].
  destruct (path_exists _ _); [quiet_solve|].
  apply (paced_bind 2); [lia|lia|apply _get_ref_type_paced|intros ref_type].
  cbv zeta. apply paced_try_finally; [|quiet_auto].
  apply (paced_try_except 3); [lia|lia| |intros ?; quiet_solve].
  apply (paced_bind 3); [lia|lia|apply call_urlretrieve_paced|intros _].
  apply paced_quiet. apply emits_bind; [apply _extract_archive_quiet|].
  intros _. quiet_auto.
Qed.

Lemma convert_model_paced {E : Externals} config id trust :
  paced 4 5 (convert_model config id trust).
Proof.
  unfold convert_model.
  apply (paced_try_except 5); [lia|lia| |intros ?; quiet_solve].
  apply (paced_bind 5); [lia|lia| |intros ?; quiet_solve].
  unfold _run_conversion_subprocess. cbv zeta.
  destruct trust; [|apply call_subprocess_run_paced].
  apply (paced_bind 4); [lia|lia|quiet_solve|intros _].
  apply call_subprocess_run_paced.
Qed.

Lemma open_write_quiet parent name (content : Py string) :
  emits quiet content -> emits quiet (open_write parent name content).
Proof. intros Hc. unfold open_write. quiet_auto; exact Hc. Qed.

Lemma upload_model_paced {E : Externals} config id out :
  paced 5 7 (upload_model config id out).
Proof.
  unfold upload_model. cbv zeta.
  apply paced_try_finally; [|quiet_auto].
  apply (paced_try_except 7); [lia|lia| |intros ?; quiet_solve].
  apply (paced_bind 6); [lia|lia| |intros _].
  { eapply paced_weaken; [| |apply call_create_repo_paced]; lia. }
  apply (paced_bind 6); [lia|lia|quiet_solve|intros w0].
  apply (paced_bind 6); [lia|lia| |intros _].
  { apply paced_quiet. destruct (negb _); [|quiet_auto].
    apply open_write_quiet. unfold generate_readme. quiet_auto. }
  apply (paced_bind 7); [lia|lia|apply call_upload_folder_paced|].
  intros _. quiet_solve.
Qed.

Lemma upload_stage_paced {E : Externals} config id out url stderr :
  paced 5 7 (upload_stage config id out url stderr).
Proof.
  unfold upload_stage.
  do 3 (apply (paced_bind 5); [lia|lia|quiet_solve|intros _]).
  apply (paced_bind 7); [lia|lia|apply upload_model_paced|].
  intros error. quiet_solve.
Qed.

Lemma convert_and_upload_paced {E : Externals} config id trust out url :
  paced 4 7 (convert_and_upload config id trust out url).
Proof.
  unfold convert_and_upload.
  apply (paced_bind 4); [lia|lia|quiet_solve|intros _].
  apply (paced_bind 5); [lia|lia|apply convert_model_paced|intros conv].
  cbv zeta. destruct (negb _); [quiet_solve|apply upload_stage_paced].
Qed.

Lemma publish_unless_present_paced {E : Externals} config ui id trust same
    out :
  paced 3 7 (publish_unless_present config ui id trust same out).
Proof.
  unfold publish_unless_present. cbv zeta.
  apply (paced_bind 4); [lia|lia| |intros already].
  { destruct (negb same); [apply call_repo_exists_paced|quiet_solve]. }
  destruct already; [quiet_solve|].
  do 3 (apply (paced_bind 4); [lia|lia|quiet_solve|intros _]).
  destruct (negb _); [quiet_solve|apply convert_and_upload_paced].
Qed.

Lemma main_paced {E : Externals} ui : paced 0 7 (main ui).
Proof.
  unfold main.
  apply (paced_bind 0); [lia|lia|quiet_solve|intros _].
  apply (paced_try_except 7); [lia|lia| |intros ?; quiet_solve].
  apply (paced_bind 1); [lia|lia|apply from_env_paced|intros config].
  cbv zeta.
  apply (paced_bind 3); [lia|lia|apply setup_repository_paced|intros _].
  apply (paced_bind 3); [lia|lia| |intros request].
  { apply paced_quiet, collect_request_emits; reflexivity. }
  destruct request as [[id trust]|]; [|quiet_solve].
  apply (paced_bind 3); [lia|lia| |intros target].
  { apply paced_quiet. unfold resolve_output_model_id. quiet_auto. }
  apply publish_unless_present_paced.
Qed.

(** X17.  In any run of [main] the calls to the collaborators come in one
    fixed order, each at most once: [whoami], the probe of the tag URL, the
    download of the archive, the existence check, the child process,
    [create_repo], [upload_folder].  No call is repeated and none is made
    after a later one. *)
Theorem main_call_order {E : Externals} (ui : UI) (w : World) :
  StronglySorted lt (call_stages (new_events w (main ui w).2)).
Proof.
  destruct (main_paced ui w) as (l & Ht & Hs & _).
  by rewrite (new_events_app _ _ _ Ht).
Qed.

(** ** A failed existence check *)

Lemma no_failed_check_absent l dest e :
  Forall no_failed_check l -> ~ In (EvRepoExists dest (Raise e)) l.
Proof.
  intros Hl Hin. rewrite Forall_forall in Hl.
  apply list_elem_of_In in Hin. by apply (Hl _ Hin dest e).
Qed.

Lemma stops_of_emits {A} (m : Py A) :
  emits no_failed_check m -> stops_at_failed_check m.
Proof.
  intros Hm w. destruct (Hm w) as (l & Ht & Hl). exists l.
  split; [done|]. intros dest e Hin.
  by destruct (no_failed_check_absent _ _ _ Hl Hin).
Qed.

Lemma stops_bind {A B} (m : Py A) (k : A -> Py B) :
  emits (fun ev => before_conversion ev /\ no_failed_check ev) m ->
  (forall a, stops_at_failed_check (k a)) ->
  stops_at_failed_check (bind m k).
Proof.
  intros Hm Hk w. rewrite bind_run.
  destruct (Hm w) as (l1 & E1 & F1).
  assert (Hbc : Forall before_conversion l1).
  { eapply Forall_impl; [exact F1|]. by intros ? [? ?]. }
  assert (Hnf : Forall no_failed_check l1).
  { eapply Forall_impl; [exact F1|]. by intros ? [? ?]. }
  destruct (m w) as [[a|e0] w1]; cbn [snd] in *.
  - destruct (Hk a w1) as (l2 & E2 & H2).
    exists (l1 ++ l2)%list. split; [by rewrite E2, E1, app_assoc|].
    intros dest e Hin. apply in_app_or in Hin as [Hin|Hin].
    + by destruct (no_failed_check_absent _ _ _ Hnf Hin).
    + destruct (H2 _ _ Hin) as [Hr Hl2]. split; [done|].
      apply Forall_app. by split.
  - exists l1. split; [done|]. intros dest e Hin.
    by destruct (no_failed_check_absent _ _ _ Hnf Hin).
Qed.

Lemma call_repo_exists_run {E : Externals} repo w :
  call_repo_exists repo w
  = (ext_repo_exists w repo,
     add_event (EvRepoExists repo (ext_repo_exists w repo)) w).
Proof. reflexivity. Qed.

Lemma publish_unless_present_stops {E : Externals} config ui id trust same
    out :
  stops_at_failed_check (publish_unless_present config ui id trust same out).
Proof.
  destruct same.
  { apply stops_of_emits. apply publish_unless_present_emits;
      try (intros; intros ??; discriminate). }
  intros w. unfold publish_unless_present. cbv zeta. cbn [negb].
  rewrite bind_run, call_repo_exists_run.
  destruct (ext_repo_exists w out) as [b|e0].
  - set (w1 := add_event (EvRepoExists out (Return b)) w).
    assert (Hrest : emits no_failed_check
              (if b then
                 st_call "write"
                   ["This model has already been converted! "
                    +:+ party_popper];;;
                 st_call "link_button"
                   ["Go to " +:+ out; hf_base_url config +:+ "/" +:+ out;
                    "primary"]
               else
                 st_call "write"
                   ["URL where the model will be converted and uploaded to:"];;;
                 st_call "code"
                   [hf_base_url config +:+ "/" +:+ out; "plaintext"];;;
                 st_call "button" ["Proceed"; "primary"];;;
                 if negb (ui_proceed ui) then ret tt
                 else
                   convert_and_upload config id trust out
                     (hf_base_url config +:+ "/" +:+ out))).
    { destruct b; [emits_auto ltac:(intros ??; discriminate)|].
      apply proceed_emits; intros; intros ??; discriminate. }
    destruct (Hrest w1) as (l & Ht & Hl).
    exists (EvRepoExists out (Return b) :: l). split.
    { rewrite Ht. subst w1. cbn. by rewrite <- app_assoc. }
    intros dest e [Hin|Hin]; [discriminate|].
    by destruct (no_failed_check_absent _ _ _ Hl Hin).
  - exists [EvRepoExists out (Raise e0)]. split; [reflexivity|].
    intros dest e [Hin|[]]. injection Hin as _ ->. split; [reflexivity|].
    repeat constructor; intros []; done.
Qed.

Lemma resolve_and_publish_stops {E : Externals} config ui id trust :
  stops_at_failed_check (resolve_and_publish config ui id trust).
Proof.
  intros w.
  destruct (resolve_and_publish_cases config ui id trust w) as [out [-> | ->]].
  - apply publish_unless_present_stops.
  - destruct (publish_unless_present_stops config ui id trust
                (ui_same_repo ui) out (add_event checkbox_event w))
      as (l & Ht & Hl).
    exists (checkbox_event :: l). split.
    { rewrite Ht. cbn. by rewrite <- app_assoc. }
    intros dest e [Hin|Hin]; [discriminate|].
    destruct (Hl _ _ Hin) as [Hr Hbc]. split; [done|].
    constructor; [cbv; tauto|done].
Qed.

Lemma main_after_config_stops {E : Externals} config ui :
  stops_at_failed_check (main_after_config config ui).
Proof.
  unfold main_after_config.
  apply stops_bind.
  { apply setup_repository_emits; intros; (split; [cbv; tauto|]);
      intros ??; discriminate. }
  intros _. apply stops_bind.
  { apply collect_request_emits; intros; (split; [cbv; tauto|]);
      intros ??; discriminate. }
  intros [[id trust]|].
  - apply resolve_and_publish_stops.
  - apply stops_of_emits, emits_ret.
Qed.

(** X18.  When the existence check of the destination raises, [main] starts
    no child process and publishes nothing, and shows "An error occurred:"
    with the text of that exception. *)
Theorem main_reports_failed_check {E : Externals} :
  forall (ui : UI) (w : World) dest (e : PyException),
    In (EvRepoExists dest (Raise e)) (new_events w (main ui w).2) ->
    In (EvSt "error" ["An error occurred: " +:+ exn_str e])
       (new_events w (main ui w).2)
    /\ Forall before_conversion (new_events w (main ui w).2).
Proof.
  intros ui w dest e. rewrite main_run.
  destruct (from_env_emits
              (fun ev => before_conversion ev /\ no_failed_check ev))
    with (w := add_event title_event w) as (cfg & Ht & Hcfg).
  { intros; split; [cbv; tauto|intros ??; discriminate]. }
  assert (Hbc : Forall before_conversion cfg).
  { eapply Forall_impl; [exact Hcfg|]. by intros ? [? ?]. }
  assert (Hnf : Forall no_failed_check cfg).
  { eapply Forall_impl; [exact Hcfg|]. by intros ? [? ?]. }
  clear Hcfg.
  destruct (from_env (add_event title_event w)) as [[config|e0] w2];
    cbn [snd] in Ht.
  2:{ cbn [snd]. intros Hin. exfalso. revert Hin.
      erewrite new_events_app
        by (cbn; rewrite Ht; cbn; rewrite <- !app_assoc; reflexivity).
      apply no_failed_check_absent. split_forall; auto;
        intros ??; discriminate. }
  destruct (main_after_config_stops config ui w2) as (l & Hl & Hstop).
  destruct (main_after_config config ui w2) as [[[]|e1] w3];
    cbn [fst snd] in *.
  - erewrite new_events_app
      by (rewrite Hl, Ht; cbn; rewrite <- !app_assoc; reflexivity).
    intros Hin.
    assert (Hin' : In (EvRepoExists dest (Raise e)) l).
    { rewrite !in_app_iff in Hin. cbn [In] in Hin.
      pose proof (no_failed_check_absent _ dest e Hnf).
      intuition discriminate. }
    by destruct (Hstop _ _ Hin').
  - erewrite new_events_app
      by (cbn; rewrite Hl, Ht; cbn; rewrite <- !app_assoc; reflexivity).
    intros Hin.
    assert (Hin' : In (EvRepoExists dest (Raise e)) l).
    { rewrite !in_app_iff in Hin. cbn [In] in Hin.
      pose proof (no_failed_check_absent _ dest e Hnf).
      intuition discriminate. }
    destruct (Hstop _ _ Hin') as [[= ->] Hbcl]. split.
    + rewrite !in_app_iff. do 4 right. left. reflexivity.
    + split_forall; auto; cbv; tauto.
Qed.

Lemma main_reports_failed_check_witness :
  In (EvSt "error"
        ["An error occurred: " +:+ exn_str (http_error "500 Server Error")])
     (new_events ready_world (main (E := all_broken) ui_pythia ready_world).2)
  /\ Forall before_conversion
       (new_events ready_world
          (main (E := all_broken) ui_pythia ready_world).2).
Proof.
  apply (main_reports_failed_check (E := all_broken) ui_pythia ready_world
           "alice/pythia-14m-ONNX").
  vm_compute. auto 10.
Defined.
